(** * Sensor-Logger: a shallow embedding of the recording pipeline

    The Go packages [models], [views], [services/ingest], [controller] and
    [utils] are embedded one Rocq module each, with the names of the
    source.  Integers are [Z] with the wrap-around of their Go type
    written out; [float64] is the IEEE-754 binary64 datatype of the
    Standard Library ([spec_float]); a Go pointer to a record is an
    address into a typed store, so that an assignment through a pointer
    is seen by every holder of it; a channel is a bounded FIFO queue; and
    every step that the Go code makes atomic (one channel operation, one
    critical section of a mutex) is one transition of the running
    program.  What the program calls in the Go library and the operating
    system is the interface [Runtime].  The logger ([utils/logger.go])
    writes messages only and is left out. *)

From Stdlib Require Import ZArith List String Ascii Lia Bool.
From Stdlib.Strings Require Import Byte.
From Stdlib Require Import Decimal DecimalFacts DecimalString DecimalN DecimalZ.
From Stdlib Require Import Floats SpecFloat.
From stdpp Require Import base option list gmap strings.

Open Scope string_scope.
Open Scope list_scope.
Open Scope Z_scope.

(** ** Machine integers *)

Definition wrap_u64 (z : Z) : Z := z mod 2 ^ 64.
Definition wrap_i64 (z : Z) : Z := (z + 2 ^ 63) mod 2 ^ 64 - 2 ^ 63.

Definition max_u64 : Z := 2 ^ 64 - 1.
Definition max_i64 : Z := 2 ^ 63 - 1.

(** ** Go's [strconv], as far as the models use it *)

Module strconv.

(** [strconv.FormatInt(v, 10)]: the shortest decimal numeral, with a
    leading minus sign for negative values. *)
Definition FormatInt (v : Z) : string :=
  NilZero.string_of_int (Z.to_int v).

(** [strconv.FormatUint(v, 10)]. *)
Definition FormatUint (v : Z) : string :=
  NilZero.string_of_uint (N.to_uint (Z.to_N v)).

Definition Itoa (v : Z) : string := FormatInt v.

Definition digit_char (d : Z) : ascii := ascii_of_nat (48 + Z.to_nat d).

(** The [p] decimal digits of [r], most significant first, zero padded. *)
Fixpoint frac_digits (p : nat) (r : Z) : string :=
  match p with
  | O => EmptyString
  | S p' => String (digit_char ((r / 10 ^ Z.of_nat p') mod 10))
                   (frac_digits p' r)
  end.

(** Round [num / den] to the nearest integer, ties to even. *)
Definition round_half_even (num den : Z) : Z :=
  let q := num / den in
  let r := num mod den in
  match 2 * r ?= den with
  | Lt => q
  | Gt => q + 1
  | Eq => if Z.even q then q else q + 1
  end.

(** The value [m * 2^e] scaled by [10^p] and rounded to an integer. *)
Definition scaled (m : positive) (e : Z) (p : nat) : Z :=
  if 0 <=? e
  then Z.pos m * 2 ^ e * 10 ^ Z.of_nat p
  else round_half_even (Z.pos m * 10 ^ Z.of_nat p) (2 ^ (- e)).

Definition fmtF (neg : bool) (n : Z) (p : nat) : string :=
  (if neg then "-" else "")
    +:+ FormatUint (n / 10 ^ Z.of_nat p)
    +:+ match p with
        | O => ""
        | S _ => "." +:+ frac_digits p (n mod 10 ^ Z.of_nat p)
        end.

(** [strconv.FormatFloat(v, 'f', prec, 64)] for [prec >= 0]: the exact
    binary value rounded to [prec] decimals (ties to even); NaN and the
    infinities have the fixed spellings of the Go library. *)
Definition FormatFloat_f (v : spec_float) (prec : nat) : string :=
  match v with
  | S754_nan => "NaN"
  | S754_infinity false => "+Inf"
  | S754_infinity true => "-Inf"
  | S754_zero s => fmtF s 0 prec
  | S754_finite s m e => fmtF s (scaled m e prec) prec
  end.

End strconv.

(** ** Package [models] *)

Module models.

Definition float64 : Type := spec_float.
Definition byte : Type := Byte.byte.

(** helpers.go *)
Definition itoa (v : Z) : string := strconv.Itoa v.
Definition itoa64 (v : Z) : string := strconv.FormatInt v.
Definition utoa64 (v : Z) : string := strconv.FormatUint v.
Definition ftoa (v : float64) (prec : nat) : string :=
  strconv.FormatFloat_f v prec.

(** The interface [CSVRowWriter]: every loggable model has a header and
    renders one instance to a row. *)
Class CSVRowWriter (A : Type) := {
  CSVHeader : list string;
  CSVRow : A -> list string
}.
Arguments CSVHeader A {_}.

Definition fzero : float64 := S754_zero false.

Module CameraFrame.
Record t := mk {
  TimestampNs : Z;
  FrameID : Z;
  Width : Z;
  Height : Z;
  Format : string;
  FilePath : string;
  SizeBytes : Z;
  JPEG : list byte
}.
Definition zero : t := mk 0 0 0 0 "" "" 0 [].
Definition with_FilePath (p : string) (f : t) : t :=
  mk (TimestampNs f) (FrameID f) (Width f) (Height f) (Format f) p
     (SizeBytes f) (JPEG f).
Definition CSVHeader : list string :=
  ["timestamp_ns"; "frame_id"; "width"; "height";
   "format"; "file_path"; "size_bytes"].
Definition CSVRow (f : t) : list string :=
  [itoa64 (TimestampNs f);
   utoa64 (FrameID f);
   itoa (Width f);
   itoa (Height f);
   Format f;
   FilePath f;
   itoa (SizeBytes f)].
End CameraFrame.

Module LidarPacket.
Record t := mk {
  TimestampNs : Z;
  PacketID : Z;
  NumPoints : Z;
  Model : string;
  RotationDeg : float64;
  CloudFilePath : string;
  SizeBytes : Z;
  RawCloud : list byte
}.
Definition zero : t := mk 0 0 0 "" fzero "" 0 [].
Definition CSVHeader : list string :=
  ["timestamp_ns"; "packet_id"; "num_points"; "model";
   "rotation_deg"; "cloud_file_path"; "size_bytes"].
Definition CSVRow (l : t) : list string :=
  [itoa64 (TimestampNs l);
   utoa64 (PacketID l);
   itoa (NumPoints l);
   Model l;
   ftoa (RotationDeg l) 2;
   CloudFilePath l;
   itoa (SizeBytes l)].
End LidarPacket.

Module GPSData.
Record t := mk {
  TimestampNs : Z;
  Latitude : float64;
  Longitude : float64;
  Altitude : float64;
  Speed : float64;
  Heading : float64;
  HDOP : float64;
  FixQuality : Z;
  NumSats : Z
}.
Definition zero : t := mk 0 fzero fzero fzero fzero fzero fzero 0 0.
Definition CSVHeader : list string :=
  ["timestamp_ns"; "latitude"; "longitude"; "altitude";
   "speed"; "heading"; "hdop"; "fix_quality"; "num_sats"].
Definition CSVRow (g : t) : list string :=
  [itoa64 (TimestampNs g);
   ftoa (Latitude g) 9;
   ftoa (Longitude g) 9;
   ftoa (Altitude g) 3;
   ftoa (Speed g) 4;
   ftoa (Heading g) 2;
   ftoa (HDOP g) 2;
   itoa (FixQuality g);
   itoa (NumSats g)].
End GPSData.

Module IMUData.
Record t := mk {
  TimestampNs : Z;
  AccelX : float64; AccelY : float64; AccelZ : float64;
  GyroX : float64; GyroY : float64; GyroZ : float64;
  MagX : float64; MagY : float64; MagZ : float64;
  Temperature : float64
}.
Definition zero : t :=
  mk 0 fzero fzero fzero fzero fzero fzero fzero fzero fzero fzero.
Definition CSVHeader : list string :=
  ["timestamp_ns";
   "accel_x"; "accel_y"; "accel_z";
   "gyro_x"; "gyro_y"; "gyro_z";
   "mag_x"; "mag_y"; "mag_z";
   "temperature"].
Definition CSVRow (d : t) : list string :=
  [itoa64 (TimestampNs d);
   ftoa (AccelX d) 6; ftoa (AccelY d) 6; ftoa (AccelZ d) 6;
   ftoa (GyroX d) 6; ftoa (GyroY d) 6; ftoa (GyroZ d) 6;
   ftoa (MagX d) 4; ftoa (MagY d) 4; ftoa (MagZ d) 4;
   ftoa (Temperature d) 2].
End IMUData.

Module RadarTarget.
Record t := mk {
  TimestampNs : Z;
  TargetID : Z;
  Range : float64;
  Azimuth : float64;
  Elevation : float64;
  Velocity : float64;
  RCS : float64
}.
Definition zero : t := mk 0 0 fzero fzero fzero fzero fzero.
Definition CSVHeader : list string :=
  ["timestamp_ns"; "target_id"; "range"; "azimuth";
   "elevation"; "velocity"; "rcs"].
Definition CSVRow (r : t) : list string :=
  [itoa64 (TimestampNs r);
   itoa (TargetID r);
   ftoa (Range r) 3;
   ftoa (Azimuth r) 2;
   ftoa (Elevation r) 2;
   ftoa (Velocity r) 3;
   ftoa (RCS r) 2].
End RadarTarget.

(** Addresses of records.  A Go pointer [*T] is [option ptr]: [None] is
    [nil], [Some a] the record at address [a] of the store of [T]. *)
Definition ptr := nat.

(** The records allocated so far, one arena per record type; a record's
    address is its index, so an allocation appends. *)
Record Store := mkStore {
  cameras : list CameraFrame.t;
  lidars : list LidarPacket.t;
  gpss : list GPSData.t;
  imus : list IMUData.t;
  radars : list RadarTarget.t
}.

Definition empty_store : Store := mkStore [] [] [] [] [].

Definition camera_at (h : Store) (a : ptr) : CameraFrame.t :=
  default CameraFrame.zero (cameras h !! a).
Definition lidar_at (h : Store) (a : ptr) : LidarPacket.t :=
  default LidarPacket.zero (lidars h !! a).
Definition gps_at (h : Store) (a : ptr) : GPSData.t :=
  default GPSData.zero (gpss h !! a).
Definition imu_at (h : Store) (a : ptr) : IMUData.t :=
  default IMUData.zero (imus h !! a).
Definition radar_at (h : Store) (a : ptr) : RadarTarget.t :=
  default RadarTarget.zero (radars h !! a).

(** [&models.CameraFrame{...}] and its siblings. *)
Definition new_camera (h : Store) (f : CameraFrame.t) : Store * ptr :=
  (mkStore (cameras h ++ [f]) (lidars h) (gpss h) (imus h) (radars h),
   length (cameras h)).
Definition new_lidar (h : Store) (p : LidarPacket.t) : Store * ptr :=
  (mkStore (cameras h) (lidars h ++ [p]) (gpss h) (imus h) (radars h),
   length (lidars h)).
Definition new_gps (h : Store) (g : GPSData.t) : Store * ptr :=
  (mkStore (cameras h) (lidars h) (gpss h ++ [g]) (imus h) (radars h),
   length (gpss h)).
Definition new_imu (h : Store) (d : IMUData.t) : Store * ptr :=
  (mkStore (cameras h) (lidars h) (gpss h) (imus h ++ [d]) (radars h),
   length (imus h)).
Definition new_radar (h : Store) (r : RadarTarget.t) : Store * ptr :=
  (mkStore (cameras h) (lidars h) (gpss h) (imus h) (radars h ++ [r]),
   length (radars h)).

(** [p.FilePath = s] through a pointer [p]. *)
Definition set_camera_FilePath (h : Store) (a : ptr) (s : string) : Store :=
  mkStore (<[a := CameraFrame.with_FilePath s (camera_at h a)]> (cameras h))
          (lidars h) (gpss h) (imus h) (radars h).

Module FusedRecord.
Record t := mk {
  TimestampNs : Z;
  Camera : option ptr;
  Lidar : option ptr;
  GPS : option ptr;
  IMU : option ptr;
  Radar : option ptr
}.

Definition CSVHeader : list string :=
  let h := ["timestamp_ns"] in
  let h := h ++ ["cam_frame_id"; "cam_file_path"; "cam_width"; "cam_height"] in
  let h := h ++ ["lidar_packet_id"; "lidar_num_points"; "lidar_cloud_path"] in
  let h := h ++ ["gps_lat"; "gps_lon"; "gps_alt"; "gps_speed"; "gps_heading"] in
  let h := h ++ ["imu_ax"; "imu_ay"; "imu_az"; "imu_gx"; "imu_gy"; "imu_gz"] in
  let h := h ++ ["radar_range"; "radar_azimuth"; "radar_velocity"] in
  h.

Definition CSVRow (h : Store) (f : t) : list string :=
  let row := [itoa64 (TimestampNs f)] in
  let row :=
    match Camera f with
    | Some a =>
        let c := camera_at h a in
        row ++ [utoa64 (CameraFrame.FrameID c); CameraFrame.FilePath c;
                itoa (CameraFrame.Width c); itoa (CameraFrame.Height c)]
    | None => row ++ [""; ""; ""; ""]
    end in
  let row :=
    match Lidar f with
    | Some a =>
        let l := lidar_at h a in
        row ++ [utoa64 (LidarPacket.PacketID l); itoa (LidarPacket.NumPoints l);
                LidarPacket.CloudFilePath l]
    | None => row ++ [""; ""; ""]
    end in
  let row :=
    match GPS f with
    | Some a =>
        let g := gps_at h a in
        row ++ [ftoa (GPSData.Latitude g) 9; ftoa (GPSData.Longitude g) 9;
                ftoa (GPSData.Altitude g) 3; ftoa (GPSData.Speed g) 4;
                ftoa (GPSData.Heading g) 2]
    | None => row ++ [""; ""; ""; ""; ""]
    end in
  let row :=
    match IMU f with
    | Some a =>
        let d := imu_at h a in
        row ++ [ftoa (IMUData.AccelX d) 6; ftoa (IMUData.AccelY d) 6;
                ftoa (IMUData.AccelZ d) 6;
                ftoa (IMUData.GyroX d) 6; ftoa (IMUData.GyroY d) 6;
                ftoa (IMUData.GyroZ d) 6]
    | None => row ++ [""; ""; ""; ""; ""; ""]
    end in
  let row :=
    match Radar f with
    | Some a =>
        let r := radar_at h a in
        row ++ [ftoa (RadarTarget.Range r) 3; ftoa (RadarTarget.Azimuth r) 2;
                ftoa (RadarTarget.Velocity r) 3]
    | None => row ++ [""; ""; ""]
    end in
  row.
End FusedRecord.

#[export] Instance CameraFrame_CSV : CSVRowWriter CameraFrame.t :=
  {| CSVHeader := CameraFrame.CSVHeader; CSVRow := CameraFrame.CSVRow |}.
#[export] Instance LidarPacket_CSV : CSVRowWriter LidarPacket.t :=
  {| CSVHeader := LidarPacket.CSVHeader; CSVRow := LidarPacket.CSVRow |}.
#[export] Instance GPSData_CSV : CSVRowWriter GPSData.t :=
  {| CSVHeader := GPSData.CSVHeader; CSVRow := GPSData.CSVRow |}.
#[export] Instance IMUData_CSV : CSVRowWriter IMUData.t :=
  {| CSVHeader := IMUData.CSVHeader; CSVRow := IMUData.CSVRow |}.
#[export] Instance RadarTarget_CSV : CSVRowWriter RadarTarget.t :=
  {| CSVHeader := RadarTarget.CSVHeader; CSVRow := RadarTarget.CSVRow |}.
(** A fused record is rendered together with the store its pointers point
    into. *)
#[export] Instance FusedRecord_CSV : CSVRowWriter (Store * FusedRecord.t) :=
  {| CSVHeader := FusedRecord.CSVHeader;
     CSVRow := fun hf => FusedRecord.CSVRow (fst hf) (snd hf) |}.

End models.


(** ** The Go runtime and the operating system

    What the program calls but does not define: the file system behind
    package [os], [filepath.Join], the record encoder of [encoding/csv]
    and three functions of [math].  They are the fields of one interface,
    so every theorem below holds for every file system and every encoder;
    [SimRuntime] further down is an instance that computes. *)

Definition error : Type := string.

Class Runtime := {
  (** the state of the file system, and an open [*os.File] *)
  FS : Type;
  File : Type;
  (** [os.Stat(path)]: [None] is [err == nil], the path exists *)
  os_Stat : FS -> string -> option error;
  os_MkdirAll : FS -> string -> FS * option error;
  (** [os.Create(path)]: create or truncate, open for writing *)
  os_Create : FS -> string -> FS * (File + error);
  os_WriteFile : FS -> string -> list models.byte -> FS * option error;
  (** [f.Write(p)]: the bytes accepted and the error *)
  file_Write : File -> FS -> list models.byte -> FS * nat * option error;
  file_Close : File -> FS -> FS * option error;
  (** what is stored under a path, when it is a regular file *)
  file_contents : FS -> string -> option (list models.byte);
  filepath_Join : list string -> string;
  (** the chunks that [csv.Writer.Write(record)] hands, in order, to its
      buffered writer: commas, fields, quotes and the final newline *)
  csv_chunks : list string -> list (list models.byte);
  math_Sin : models.float64 -> models.float64;
  math_Cos : models.float64 -> models.float64;
  math_Mod : models.float64 -> models.float64 -> models.float64;
  (** the contract of [io.Writer]: a short write reports an error *)
  file_Write_contract :
    forall f fs p fs' n err,
      file_Write f fs p = (fs', n, err) ->
      (n <= length p)%nat /\ ((n < length p)%nat -> err <> None)
}.

(** ** Go's [bufio.Writer] over an arbitrary underlying writer *)

Module bufio.

Record Writer := mk {
  buf : list models.byte;     (* b.buf[0:b.n] *)
  size : nat;                 (* len(b.buf) *)
  err : option error          (* the sticky error *)
}.

Definition defaultBufSize : nat := 4096.

Definition ErrShortWrite : error := "short write".

Definition NewWriterSize (sz : Z) : Writer :=
  mk [] (if sz <=? 0 then defaultBufSize else Z.to_nat sz) None.

Definition Available (b : Writer) : nat := (size b - length (buf b))%nat.
Definition Buffered (b : Writer) : nat := length (buf b).

Section over.
Context {U : Type} (wr : U -> list models.byte -> U * nat * option error).

Definition Flush (b : Writer) (u : U) : Writer * U * option error :=
  match err b with
  | Some e => (b, u, Some e)
  | None =>
      match buf b with
      | [] => (b, u, None)
      | _ :: _ =>
          let '(u', n, e) := wr u (buf b) in
          let e :=
            match e with
            | None => if (n <? length (buf b))%nat then Some ErrShortWrite else None
            | Some _ => e
            end in
          match e with
          | Some _ => (mk (drop n (buf b)) (size b) e, u', e)
          | None => (mk [] (size b) None, u', None)
          end
      end
  end.

(** [Write]: the loop of the Go source runs at most twice when the
    underlying writer keeps the [io.Writer] contract, once to fill and
    flush a partly filled buffer and once to pass a large remainder
    straight through; both turns are written out. *)
Definition Write (b : Writer) (u : U) (p : list models.byte)
  : Writer * U * nat * option error :=
  match err b with
  | Some e => (b, u, O, Some e)
  | None =>
      if (length p <=? Available b)%nat
      then (mk (buf b ++ p) (size b) None, u, length p, None)
      else
        let '(b1, u1, n1) :=
          if (Buffered b =? 0)%nat then (b, u, O)
          else
            let n := Available b in
            let '(b', u', _) := Flush (mk (buf b ++ take n p) (size b) None) u in
            (b', u', n) in
        let p1 := drop n1 p in
        match err b1 with
        | Some e => (b1, u1, n1, Some e)
        | None =>
            if (length p1 <=? Available b1)%nat
            then (mk (buf b1 ++ p1) (size b1) None, u1, (n1 + length p1)%nat, None)
            else
              let '(u2, n2, e) := wr u1 p1 in
              (mk (buf b1) (size b1) e, u2, (n1 + n2)%nat, e)
        end
  end.

End over.

End bufio.

(** ** Package [views] *)

Module views.

(** csv_schema.go *)
Definition SensorType : Type := Z.

Definition SensorCamera : SensorType := 0.
Definition SensorLidar : SensorType := 1.
Definition SensorGPS : SensorType := 2.
Definition SensorIMU : SensorType := 3.
Definition SensorRadar : SensorType := 4.
Definition SensorFused : SensorType := 5.

Definition sensorNames : gmap Z string :=
  <[SensorCamera := "camera"]>
  (<[SensorLidar := "lidar"]>
  (<[SensorGPS := "gps"]>
  (<[SensorIMU := "imu"]>
  (<[SensorRadar := "radar"]>
  (<[SensorFused := "fused"]> ∅))))).

Definition SensorType_String (s : SensorType) : string :=
  match sensorNames !! s with
  | Some n => n
  | None => "unknown"
  end.

Definition SchemaColumns : gmap Z (list string) :=
  <[SensorCamera :=
      ["timestamp_ns"; "frame_id"; "width"; "height";
       "format"; "file_path"; "size_bytes"]]>
  (<[SensorLidar :=
      ["timestamp_ns"; "packet_id"; "num_points"; "model";
       "rotation_deg"; "cloud_file_path"; "size_bytes"]]>
  (<[SensorGPS :=
      ["timestamp_ns"; "latitude"; "longitude"; "altitude";
       "speed"; "heading"; "hdop"; "fix_quality"; "num_sats"]]>
  (<[SensorIMU :=
      ["timestamp_ns";
       "accel_x"; "accel_y"; "accel_z";
       "gyro_x"; "gyro_y"; "gyro_z";
       "mag_x"; "mag_y"; "mag_z";
       "temperature"]]>
  (<[SensorRadar :=
      ["timestamp_ns"; "target_id"; "range"; "azimuth";
       "elevation"; "velocity"; "rcs"]]>
  (<[SensorFused :=
      ["timestamp_ns";
       "cam_frame_id"; "cam_file_path"; "cam_width"; "cam_height";
       "lidar_packet_id"; "lidar_num_points"; "lidar_cloud_path";
       "gps_lat"; "gps_lon"; "gps_alt"; "gps_speed"; "gps_heading";
       "imu_ax"; "imu_ay"; "imu_az"; "imu_gx"; "imu_gy"; "imu_gz";
       "radar_range"; "radar_azimuth"; "radar_velocity"]]> ∅))))).

(** data_export.go *)
Module CSVWriter.

Section with_runtime.
Context {RT : Runtime}.

(** The writer's mutex guards each method as a whole; a method is one
    step, so the lock itself carries no state here.  [csv] is the
    [bufio.Writer] inside the [csv.Writer]: [csv.NewWriter(bw)] wraps [bw]
    in a buffer of its own unless [bw] already holds [defaultBufSize]
    bytes, in which case it writes into [bw] directly ([None]). *)
Record t := mk {
  file : File;
  buf : bufio.Writer;
  csv : option bufio.Writer;
  rows : Z
}.

(** [w.buf.Write(p)] and [w.buf.Flush()], over the file. *)
Definition buf_Write (f : File) (s : bufio.Writer * FS) (p : list models.byte)
  : (bufio.Writer * FS) * nat * option error :=
  let '(b', fs', n, e) := bufio.Write (file_Write f) (fst s) (snd s) p in
  ((b', fs'), n, e).

Definition buf_Flush (w : t) (fs : FS) : t * FS * option error :=
  let '(b', fs', e) := bufio.Flush (file_Write (file w)) (buf w) fs in
  (mk (file w) b' (csv w) (rows w), fs', e).

(** One write of the csv encoder into its buffered writer. *)
Definition csv_put (w : t) (fs : FS) (p : list models.byte) : t * FS * option error :=
  match csv w with
  | None =>
      let '(b', fs', _, e) := bufio.Write (file_Write (file w)) (buf w) fs p in
      (mk (file w) b' None (rows w), fs', e)
  | Some c =>
      let '(c', (b', fs'), _, e) := bufio.Write (buf_Write (file w)) c (buf w, fs) p in
      (mk (file w) b' (Some c') (rows w), fs', e)
  end.

Fixpoint csv_put_all (w : t) (fs : FS) (ps : list (list models.byte))
  : t * FS * option error :=
  match ps with
  | [] => (w, fs, None)
  | p :: ps' =>
      match csv_put w fs p with
      | (w', fs', Some e) => (w', fs', Some e)
      | (w', fs', None) => csv_put_all w' fs' ps'
      end
  end.

(** [w.csv.Write(record)] *)
Definition csv_Write (w : t) (fs : FS) (record : list string) : t * FS * option error :=
  csv_put_all w fs (csv_chunks record).

(** [w.csv.Flush()] *)
Definition csv_Flush (w : t) (fs : FS) : t * FS :=
  match csv w with
  | None =>
      let '(b', fs', _) := bufio.Flush (file_Write (file w)) (buf w) fs in
      (mk (file w) b' None (rows w), fs')
  | Some c =>
      let '(c', (b', fs'), _) := bufio.Flush (buf_Write (file w)) c (buf w, fs) in
      (mk (file w) b' (Some c') (rows w), fs')
  end.

Definition csv_NewWriter (bw : bufio.Writer) : option bufio.Writer :=
  if (bufio.defaultBufSize <=? bufio.size bw)%nat then None
  else Some (bufio.NewWriterSize (Z.of_nat bufio.defaultBufSize)).

Definition NewCSVWriter (fs : FS) (path : string) (bufSizeBytes : Z)
    (writeHeader : bool) (header : list string) : FS * (t + error) :=
  match os_Create fs path with
  | (fs1, inr e) => (fs1, inr ("csv create " +:+ path +:+ ": " +:+ e))
  | (fs1, inl f) =>
      let bufSizeBytes := if bufSizeBytes <=? 0 then 256 * 1024 else bufSizeBytes in
      let bw := bufio.NewWriterSize bufSizeBytes in
      let cw := csv_NewWriter bw in
      let w := mk f bw cw 0 in
      if writeHeader && (0 <? length header)%nat
      then
        match csv_Write w fs1 header with
        | (_, fs2, Some e) =>
            let '(fs3, _) := file_Close f fs2 in
            (fs3, inr ("csv write header: " +:+ e))
        | (w', fs2, None) => (fs2, inl w')
        end
      else (fs1, inl w)
  end.

Definition WriteRow (w : t) (fs : FS) (row : list string) : t * FS :=
  let '(w1, fs1, _) := csv_Write w fs row in
  (mk (file w1) (buf w1) (csv w1) (wrap_u64 (rows w1 + 1)), fs1).

Definition Flush (w : t) (fs : FS) : t * FS :=
  let '(w1, fs1) := csv_Flush w fs in
  let '(w2, fs2, _) := buf_Flush w1 fs1 in
  (w2, fs2).

Definition Close (w : t) (fs : FS) : t * FS :=
  let '(w1, fs1) := Flush w fs in
  let '(fs2, _) := file_Close (file w1) fs1 in
  (w1, fs2).

Definition Rows (w : t) : Z := rows w.

End with_runtime.

End CSVWriter.

End views.

(** ** binary64 arithmetic

    Go evaluates these expressions in [float64]; every operation rounds to
    nearest even, one at a time (no fused multiply-add, as on amd64). *)

Module f64.

Definition add : models.float64 -> models.float64 -> models.float64 := SFadd 53 1024.
Definition mul : models.float64 -> models.float64 -> models.float64 := SFmul 53 1024.

(** [float64(n)] for an unsigned integer *)
Definition of_uint (n : Z) : models.float64 := binary_normalize 53 1024 n 0 false.

#[local] Set Warnings "-inexact-float".
Definition c0_48 : models.float64 := Eval vm_compute in Prim2SF 0.48%float.
Definition c360 : models.float64 := Eval vm_compute in Prim2SF 360%float.
Definition c0_00001 : models.float64 := Eval vm_compute in Prim2SF 0.00001%float.
Definition c0_000005 : models.float64 := Eval vm_compute in Prim2SF 0.000005%float.
Definition c920 : models.float64 := Eval vm_compute in Prim2SF 920%float.
Definition c2 : models.float64 := Eval vm_compute in Prim2SF 2%float.
Definition c8 : models.float64 := Eval vm_compute in Prim2SF 8%float.
Definition c45 : models.float64 := Eval vm_compute in Prim2SF 45%float.
Definition c5 : models.float64 := Eval vm_compute in Prim2SF 5%float.
Definition c0_8 : models.float64 := Eval vm_compute in Prim2SF 0.8%float.
Definition c0_4 : models.float64 := Eval vm_compute in Prim2SF 0.4%float.
Definition c12_9716 : models.float64 := Eval vm_compute in Prim2SF 12.9716%float.
Definition c77_5946 : models.float64 := Eval vm_compute in Prim2SF 77.5946%float.
Definition c0_02 : models.float64 := Eval vm_compute in Prim2SF 0.02%float.
Definition c0_01 : models.float64 := Eval vm_compute in Prim2SF 0.01%float.
Definition c0_005 : models.float64 := Eval vm_compute in Prim2SF 0.005%float.
Definition c9_81 : models.float64 := Eval vm_compute in Prim2SF 9.81%float.
Definition c0_001 : models.float64 := Eval vm_compute in Prim2SF 0.001%float.
Definition c0_0005 : models.float64 := Eval vm_compute in Prim2SF 0.0005%float.
Definition c0_0002 : models.float64 := Eval vm_compute in Prim2SF 0.0002%float.
Definition c25 : models.float64 := Eval vm_compute in Prim2SF 25%float.
Definition c0_5 : models.float64 := Eval vm_compute in Prim2SF 0.5%float.
Definition cm10 : models.float64 := Eval vm_compute in Prim2SF (-10)%float.
Definition c35 : models.float64 := Eval vm_compute in Prim2SF 35%float.
Definition c10 : models.float64 := Eval vm_compute in Prim2SF 10%float.
Definition c90 : models.float64 := Eval vm_compute in Prim2SF 90%float.
Definition cm30 : models.float64 := Eval vm_compute in Prim2SF (-30)%float.
Definition c60 : models.float64 := Eval vm_compute in Prim2SF 60%float.
Definition cm5 : models.float64 := Eval vm_compute in Prim2SF (-5)%float.
Definition cm15 : models.float64 := Eval vm_compute in Prim2SF (-15)%float.
Definition c30 : models.float64 := Eval vm_compute in Prim2SF 30%float.

End f64.

(** ** Buffered channels *)

Module channel.

Record chan (A : Type) := mk {
  queue : list A;
  cap : nat;
  closed : bool
}.
Arguments mk {A}.
Arguments queue {A}.
Arguments cap {A}.
Arguments closed {A}.

(** [make(chan T, n)] *)
Definition make {A} (n : Z) : chan A := mk [] (Z.to_nat n) false.

(** [select { case ch <- v: ... default: ... }]: the send goes through
    exactly when the buffer has room, and never waits. *)
Definition try_send {A} (ch : chan A) (v : A) : chan A * bool :=
  if (length (queue ch) <? cap ch)%nat
  then (mk (queue ch ++ [v]) (cap ch) (closed ch), true)
  else (ch, false).

(** [v, ok := <-ch] when it can proceed: [Some (ch', Some v)] delivers the
    oldest element, [Some (ch, None)] is [ok == false] on a closed and
    drained channel, [None] means the receive would wait. *)
Definition recv {A} (ch : chan A) : option (chan A * option A) :=
  match queue ch with
  | v :: q => Some (mk q (cap ch) (closed ch), Some v)
  | [] => if closed ch then Some (ch, None) else None
  end.

Definition close {A} (ch : chan A) : chan A := mk (queue ch) (cap ch) true.

End channel.

(** ** Package [utils] *)

Module utils.

(** Modelled from the spec: the configuration structs of
    utils/config_loader.go, which is not among the sources; the fields are
    the ones the spec enumerates and the code under [src/] reads. *)
Module CameraConfig.
Record t := mk {
  Enabled : bool;
  ChannelBuffer : Z;
  FPS : Z;
  Width : Z;           (* Resolution.Width *)
  Height : Z;          (* Resolution.Height *)
  Format : string;
  SaveFrames : bool
}.
End CameraConfig.

Module LidarConfig.
Record t := mk {
  Enabled : bool;
  ChannelBuffer : Z;
  Model : string;
  RPM : Z;
  PointsPerPkt : Z
}.
End LidarConfig.

Module GPSConfig.
Record t := mk {
  Enabled : bool;
  ChannelBuffer : Z;
  UpdateRateHz : Z
}.
End GPSConfig.

Module IMUConfig.
Record t := mk {
  Enabled : bool;
  ChannelBuffer : Z;
  UpdateRateHz : Z
}.
End IMUConfig.

Module RadarConfig.
Record t := mk {
  Enabled : bool;
  ChannelBuffer : Z
}.
End RadarConfig.

Module SensorsConfig.
Record t := mk {
  Camera : CameraConfig.t;
  Lidar : LidarConfig.t;
  GPS : GPSConfig.t;
  IMU : IMUConfig.t;
  Radar : RadarConfig.t;
  SimulationEnabled : bool;
  DurationSeconds : Z
}.
End SensorsConfig.

Module StorageConfig.
Record t := mk {
  BaseDir : string;
  SessionPrefix : string;
  FlushIntervalMs : Z;     (* CSV.FlushIntervalMs *)
  BufferSizeKB : Z;        (* CSV.BufferSizeKB *)
  WriteHeader : bool;      (* CSV.WriteHeader *)
  SavePath : string;       (* Frames.SavePath *)
  Overwrite : bool
}.
End StorageConfig.

(** time_stamp.go: [SessionName]; [stamp] is what
    [time.Now().Format("20060102_150405")] returned. *)
Definition SessionName (stamp : string) (prefix : string) : string :=
  prefix +:+ "_" +:+ stamp.

End utils.

(** ** Package [services/ingest]

    Each reader's [run] is the loop [for { select { ctx.Done | ticker.C } }].
    One turn of the loop is one function here: [run_tick] for a tick, given
    what the clock and [math/rand] returned during it, and [run_done] for
    the cancellation, which leaves through [defer close(r.Out)].  The
    variables that [run] declares before the loop are the fields of
    [locals].  The period of the ticker is real time and is not part of
    the model. *)

Module ingest.

Import models.

Module CameraReader.

Record t := mk {
  cfg : utils.CameraConfig.t;
  sim : bool;
  Out : channel.chan ptr;
  dropped : Z;
  produced : Z
}.

Definition NewCameraReader (cfg : utils.CameraConfig.t) (simulate : bool) : t :=
  let buf := utils.CameraConfig.ChannelBuffer cfg in
  let buf := if buf <=? 0 then 120 else buf in
  mk cfg simulate (channel.make buf) 0 0.

(** [rnd] is the result of [rand.Intn(40_000)]. *)
Definition capture (r : t) (h : Store) (ts rnd : Z) (seq : Z) : Store * ptr :=
  if sim r then
    let sz := 80000 + rnd in
    let jpeg := replicate (Z.to_nat sz) Byte.x00 in
    let jpeg := <[1%nat := Byte.xd8]> (<[0%nat := Byte.xff]> jpeg) in
    new_camera h
      (CameraFrame.mk ts seq
         (utils.CameraConfig.Width (cfg r)) (utils.CameraConfig.Height (cfg r))
         (utils.CameraConfig.Format (cfg r)) "" sz jpeg)
  else
    new_camera h
      (CameraFrame.mk ts seq
         (utils.CameraConfig.Width (cfg r)) (utils.CameraConfig.Height (cfg r))
         (utils.CameraConfig.Format (cfg r)) "" 0 []).

Record locals := mkLocals { seq : Z }.

Definition run_enter : locals := mkLocals 0.

Definition run_tick (r : t) (l : locals) (h : Store) (ts rnd : Z)
  : t * locals * Store * ptr :=
  let '(h', frame) := capture r h ts rnd (seq l) in
  let l' := mkLocals (wrap_u64 (seq l + 1)) in
  match channel.try_send (Out r) frame with
  | (ch, true) =>
      (mk (cfg r) (sim r) ch (dropped r) (wrap_u64 (produced r + 1)), l', h', frame)
  | (_, false) =>
      (mk (cfg r) (sim r) (Out r) (wrap_u64 (dropped r + 1)) (produced r), l', h', frame)
  end.

Definition run_done (r : t) : t :=
  mk (cfg r) (sim r) (channel.close (Out r)) (dropped r) (produced r).

Definition Stats (r : t) : Z * Z := (produced r, dropped r).

End CameraReader.

Module LidarReader.

Record t := mk {
  cfg : utils.LidarConfig.t;
  sim : bool;
  Out : channel.chan ptr;
  dropped : Z;
  produced : Z
}.

Definition NewLidarReader (cfg : utils.LidarConfig.t) (simulate : bool) : t :=
  let buf := utils.LidarConfig.ChannelBuffer cfg in
  let buf := if buf <=? 0 then 256 else buf in
  mk cfg simulate (channel.make buf) 0 0.

(** [rnd] is the result of [rand.Intn(32)].  [make([]byte, nPts*16)]
    panics on a negative length: the result is [None] then. *)
Definition readPacket {RT : Runtime} (r : t) (h : Store) (ts rnd : Z) (seq : Z)
  : option (Store * ptr) :=
  if sim r then
    let nPts := wrap_i64 (wrap_i64 (utils.LidarConfig.PointsPerPkt (cfg r) + rnd) - 16) in
    let len := wrap_i64 (nPts * 16) in
    if len <? 0 then None
    else
      let cloud := replicate (Z.to_nat len) Byte.x00 in
      let rot := math_Mod (f64.mul (f64.of_uint seq) f64.c0_48) f64.c360 in
      Some (new_lidar h
              (LidarPacket.mk ts seq nPts (utils.LidarConfig.Model (cfg r)) rot ""
                 (Z.of_nat (length cloud)) cloud))
  else
    Some (new_lidar h
            (LidarPacket.mk ts seq 0 (utils.LidarConfig.Model (cfg r)) fzero "" 0 [])).

Record locals := mkLocals { seq : Z }.

Definition run_enter : locals := mkLocals 0.

Definition run_tick {RT : Runtime} (r : t) (l : locals) (h : Store) (ts rnd : Z)
  : option (t * locals * Store * ptr) :=
  match readPacket r h ts rnd (seq l) with
  | None => None
  | Some (h', pkt) =>
      let l' := mkLocals (wrap_u64 (seq l + 1)) in
      match channel.try_send (Out r) pkt with
      | (ch, true) =>
          Some (mk (cfg r) (sim r) ch (dropped r) (wrap_u64 (produced r + 1)), l', h', pkt)
      | (_, false) =>
          Some (mk (cfg r) (sim r) (Out r) (wrap_u64 (dropped r + 1)) (produced r), l', h', pkt)
      end
  end.

Definition run_done (r : t) : t :=
  mk (cfg r) (sim r) (channel.close (Out r)) (dropped r) (produced r).

Definition Stats (r : t) : Z * Z := (produced r, dropped r).

End LidarReader.

Module GPSReader.

Record t := mk {
  cfg : utils.GPSConfig.t;
  sim : bool;
  Out : channel.chan ptr;
  dropped : Z;
  produced : Z
}.

Definition NewGPSReader (cfg : utils.GPSConfig.t) (simulate : bool) : t :=
  let buf := utils.GPSConfig.ChannelBuffer cfg in
  let buf := if buf <=? 0 then 64 else buf in
  mk cfg simulate (channel.make buf) 0 0.

Record locals := mkLocals { lat : float64; lon : float64 }.

Definition run_enter : locals := mkLocals f64.c12_9716 f64.c77_5946.

(** [rf k] is the result of the [k]-th call of [rand.Float64()] in this
    tick, [ri] the result of [rand.Intn(4)]. *)
Definition readFix (r : t) (l : locals) (h : Store) (ts : Z)
    (rf : nat -> float64) (ri : Z) : locals * Store * ptr :=
  if sim r then
    let lat' := f64.add (lat l) (f64.add f64.c0_00001 (f64.mul (rf 0%nat) f64.c0_000005)) in
    let lon' := f64.add (lon l) (f64.add f64.c0_00001 (f64.mul (rf 1%nat) f64.c0_000005)) in
    let '(h', fix_) :=
      new_gps h
        (GPSData.mk ts lat' lon'
           (f64.add f64.c920 (f64.mul (rf 2%nat) f64.c2))
           (f64.add f64.c8 (f64.mul (rf 3%nat) f64.c2))
           (f64.add f64.c45 (f64.mul (rf 4%nat) f64.c5))
           (f64.add f64.c0_8 (f64.mul (rf 5%nat) f64.c0_4))
           1
           (wrap_i64 (12 + ri))) in
    (mkLocals lat' lon', h', fix_)
  else
    let '(h', fix_) := new_gps h (GPSData.mk ts fzero fzero fzero fzero fzero fzero 0 0) in
    (l, h', fix_).

Definition run_tick (r : t) (l : locals) (h : Store) (ts : Z)
    (rf : nat -> float64) (ri : Z) : t * locals * Store * ptr :=
  let '(l', h', fix_) := readFix r l h ts rf ri in
  match channel.try_send (Out r) fix_ with
  | (ch, true) =>
      (mk (cfg r) (sim r) ch (dropped r) (wrap_u64 (produced r + 1)), l', h', fix_)
  | (_, false) =>
      (mk (cfg r) (sim r) (Out r) (wrap_u64 (dropped r + 1)) (produced r), l', h', fix_)
  end.

Definition run_done (r : t) : t :=
  mk (cfg r) (sim r) (channel.close (Out r)) (dropped r) (produced r).

Definition Stats (r : t) : Z * Z := (produced r, dropped r).

End GPSReader.

Module IMUReader.

Record t := mk {
  cfg : utils.IMUConfig.t;
  sim : bool;
  Out : channel.chan ptr;
  dropped : Z;
  produced : Z
}.

Definition NewIMUReader (cfg : utils.IMUConfig.t) (simulate : bool) : t :=
  let buf := utils.IMUConfig.ChannelBuffer cfg in
  let buf := if buf <=? 0 then 512 else buf in
  mk cfg simulate (channel.make buf) 0 0.

Record locals := mkLocals { step : float64 }.

Definition run_enter : locals := mkLocals fzero.

Definition read {RT : Runtime} (r : t) (h : Store) (ts : Z) (rf : nat -> float64)
    (step : float64) : Store * ptr :=
  if sim r then
    new_imu h
      (IMUData.mk ts
         (f64.add (f64.mul f64.c0_02 (math_Sin step)) (f64.mul (rf 0%nat) f64.c0_005))
         (f64.add (f64.mul f64.c0_01 (math_Cos step)) (f64.mul (rf 1%nat) f64.c0_005))
         (f64.add f64.c9_81 (f64.mul (rf 2%nat) f64.c0_02))
         (f64.add (f64.mul f64.c0_001 (math_Sin (f64.mul step f64.c2)))
                  (f64.mul (rf 3%nat) f64.c0_0005))
         (f64.add (f64.mul f64.c0_001 (math_Cos (f64.mul step f64.c2)))
                  (f64.mul (rf 4%nat) f64.c0_0005))
         (f64.add f64.c0_0005 (f64.mul (rf 5%nat) f64.c0_0002))
         (f64.add f64.c25 (f64.mul (rf 6%nat) f64.c0_5))
         (f64.add f64.cm10 (f64.mul (rf 7%nat) f64.c0_5))
         (f64.add f64.c45 (f64.mul (rf 8%nat) f64.c0_5))
         (f64.add f64.c35 (f64.mul (rf 9%nat) f64.c2)))
  else
    new_imu h (IMUData.mk ts fzero fzero fzero fzero fzero fzero fzero fzero fzero fzero).

Definition run_tick {RT : Runtime} (r : t) (l : locals) (h : Store) (ts : Z)
    (rf : nat -> float64) : t * locals * Store * ptr :=
  let '(h', d) := read r h ts rf (step l) in
  let l' := mkLocals (f64.add (step l) f64.c0_01) in
  match channel.try_send (Out r) d with
  | (ch, true) =>
      (mk (cfg r) (sim r) ch (dropped r) (wrap_u64 (produced r + 1)), l', h', d)
  | (_, false) =>
      (mk (cfg r) (sim r) (Out r) (wrap_u64 (dropped r + 1)) (produced r), l', h', d)
  end.

Definition run_done (r : t) : t :=
  mk (cfg r) (sim r) (channel.close (Out r)) (dropped r) (produced r).

Definition Stats (r : t) : Z * Z := (produced r, dropped r).

End IMUReader.

Module RadarReader.

Record t := mk {
  cfg : utils.RadarConfig.t;
  sim : bool;
  Out : channel.chan ptr;
  dropped : Z;
  produced : Z
}.

Definition NewRadarReader (cfg : utils.RadarConfig.t) (simulate : bool) : t :=
  let buf := utils.RadarConfig.ChannelBuffer cfg in
  let buf := if buf <=? 0 then 128 else buf in
  mk cfg simulate (channel.make buf) 0 0.

Record locals := mkLocals { id : Z }.

Definition run_enter : locals := mkLocals 0.

Definition readTarget (r : t) (h : Store) (ts : Z) (rf : nat -> float64) (id : Z)
  : Store * ptr :=
  if sim r then
    new_radar h
      (RadarTarget.mk ts id
         (f64.add f64.c10 (f64.mul (rf 0%nat) f64.c90))
         (f64.add f64.cm30 (f64.mul (rf 1%nat) f64.c60))
         (f64.add f64.cm5 (f64.mul (rf 2%nat) f64.c10))
         (f64.add f64.cm15 (f64.mul (rf 3%nat) f64.c30))
         (f64.add f64.cm10 (f64.mul (rf 4%nat) f64.c30)))
  else
    new_radar h (RadarTarget.mk ts id fzero fzero fzero fzero fzero).

Definition run_tick (r : t) (l : locals) (h : Store) (ts : Z) (rf : nat -> float64)
  : t * locals * Store * ptr :=
  let '(h', tg) := readTarget r h ts rf (id l) in
  let l' := mkLocals (wrap_i64 (id l + 1)) in
  match channel.try_send (Out r) tg with
  | (ch, true) =>
      (mk (cfg r) (sim r) ch (dropped r) (wrap_u64 (produced r + 1)), l', h', tg)
  | (_, false) =>
      (mk (cfg r) (sim r) (Out r) (wrap_u64 (dropped r + 1)) (produced r), l', h', tg)
  end.

Definition run_done (r : t) : t :=
  mk (cfg r) (sim r) (channel.close (Out r)) (dropped r) (produced r).

Definition Stats (r : t) : Z * Z := (produced r, dropped r).

End RadarReader.

End ingest.

(** ** Package [controller] *)

Module controller.

Import models.

(** sensors_controller.go.  [CameraCh] and its siblings are the readers'
    own [Out] channels (a channel value is a reference), so they are read
    off the readers rather than stored a second time. *)
Module SensorsController.

Record t := mk {
  camera : option ingest.CameraReader.t;
  lidar : option ingest.LidarReader.t;
  gps : option ingest.GPSReader.t;
  imu : option ingest.IMUReader.t;
  radar : option ingest.RadarReader.t
}.

Definition CameraCh (sc : t) : option (channel.chan ptr) :=
  ingest.CameraReader.Out <$> camera sc.
Definition LidarCh (sc : t) : option (channel.chan ptr) :=
  ingest.LidarReader.Out <$> lidar sc.
Definition GPSCh (sc : t) : option (channel.chan ptr) :=
  ingest.GPSReader.Out <$> gps sc.
Definition IMUCh (sc : t) : option (channel.chan ptr) :=
  ingest.IMUReader.Out <$> imu sc.
Definition RadarCh (sc : t) : option (channel.chan ptr) :=
  ingest.RadarReader.Out <$> radar sc.

Definition NewSensorsController (cfg : utils.SensorsConfig.t) : t :=
  let sim := utils.SensorsConfig.SimulationEnabled cfg in
  mk (if utils.CameraConfig.Enabled (utils.SensorsConfig.Camera cfg)
      then Some (ingest.CameraReader.NewCameraReader (utils.SensorsConfig.Camera cfg) sim)
      else None)
     (if utils.LidarConfig.Enabled (utils.SensorsConfig.Lidar cfg)
      then Some (ingest.LidarReader.NewLidarReader (utils.SensorsConfig.Lidar cfg) sim)
      else None)
     (if utils.GPSConfig.Enabled (utils.SensorsConfig.GPS cfg)
      then Some (ingest.GPSReader.NewGPSReader (utils.SensorsConfig.GPS cfg) sim)
      else None)
     (if utils.IMUConfig.Enabled (utils.SensorsConfig.IMU cfg)
      then Some (ingest.IMUReader.NewIMUReader (utils.SensorsConfig.IMU cfg) sim)
      else None)
     (if utils.RadarConfig.Enabled (utils.SensorsConfig.Radar cfg)
      then Some (ingest.RadarReader.NewRadarReader (utils.SensorsConfig.Radar cfg) sim)
      else None).

End SensorsController.

(** fusion_controller.go.  [mu] guards every access to the five slots: a
    function below that touches them is one critical section.  A drain
    loop receives from its channel and then stores under the lock; the
    merge loop snapshots under the lock and then sends: each of these is a
    step of its own, and other goroutines may run in between. *)
Module FusionController.

Record t := mk {
  latestCamera : option ptr;
  latestLidar : option ptr;
  latestGPS : option ptr;
  latestIMU : option ptr;
  latestRadar : option ptr;
  Out : channel.chan FusedRecord.t;
  alignIntervalMs : Z
}.

Definition NewFusionController (alignMs : Z) : t :=
  let alignMs := if alignMs <=? 0 then 33 else alignMs in
  mk None None None None None (channel.make 256) alignMs.

(** [drainCamera], after [f, ok := <-ch] delivered [f]:
    [fc.mu.Lock(); fc.latestCamera = f; fc.mu.Unlock()]. *)
Definition drainCamera (fc : t) (f : ptr) : t :=
  mk (Some f) (latestLidar fc) (latestGPS fc) (latestIMU fc) (latestRadar fc)
     (Out fc) (alignIntervalMs fc).

Definition drainLidar (fc : t) (p : ptr) : t :=
  mk (latestCamera fc) (Some p) (latestGPS fc) (latestIMU fc) (latestRadar fc)
     (Out fc) (alignIntervalMs fc).

Definition drainGPS (fc : t) (g : ptr) : t :=
  mk (latestCamera fc) (latestLidar fc) (Some g) (latestIMU fc) (latestRadar fc)
     (Out fc) (alignIntervalMs fc).

Definition drainIMU (fc : t) (d : ptr) : t :=
  mk (latestCamera fc) (latestLidar fc) (latestGPS fc) (Some d) (latestRadar fc)
     (Out fc) (alignIntervalMs fc).

Definition drainRadar (fc : t) (r : ptr) : t :=
  mk (latestCamera fc) (latestLidar fc) (latestGPS fc) (latestIMU fc) (Some r)
     (Out fc) (alignIntervalMs fc).

(** [merge] on a tick, from [fc.mu.Lock()] to [fc.mu.Unlock()]; [now] is
    what [utils.NowNano()] returned. *)
Definition merge_snapshot (fc : t) (now : Z) : t * FusedRecord.t :=
  let rec := FusedRecord.mk now (latestCamera fc) (latestLidar fc)
               (latestGPS fc) (latestIMU fc) (latestRadar fc) in
  (mk None None None None None (Out fc) (alignIntervalMs fc), rec).

(** [select { case fc.Out <- rec: default: Warn(...) }]: [false] when the
    record was dropped. *)
Definition merge_send (fc : t) (rec : FusedRecord.t) : t * bool :=
  match channel.try_send (Out fc) rec with
  | (ch, true) =>
      (mk (latestCamera fc) (latestLidar fc) (latestGPS fc) (latestIMU fc)
          (latestRadar fc) ch (alignIntervalMs fc), true)
  | (_, false) => (fc, false)
  end.

(** [merge] on [ctx.Done()]: [defer close(fc.Out)]. *)
Definition merge_done (fc : t) : t :=
  mk (latestCamera fc) (latestLidar fc) (latestGPS fc) (latestIMU fc)
     (latestRadar fc) (channel.close (Out fc)) (alignIntervalMs fc).

(** The consumer of [fc.Out] took a record: the queue that is left. *)
Definition with_Out (ch : channel.chan FusedRecord.t) (fc : t) : t :=
  mk (latestCamera fc) (latestLidar fc) (latestGPS fc) (latestIMU fc)
     (latestRadar fc) ch (alignIntervalMs fc).

End FusionController.

(** recording_controller.go *)
Module RecordingController.

Section with_runtime.
Context {RT : Runtime}.

Record t := mk {
  storageCfg : utils.StorageConfig.t;
  sessionDir : string;
  fusedWriter : option views.CSVWriter.t;
  cameraWriter : option views.CSVWriter.t;
  lidarWriter : option views.CSVWriter.t;
  gpsWriter : option views.CSVWriter.t;
  imuWriter : option views.CSVWriter.t;
  radarWriter : option views.CSVWriter.t;
  saveFrames : bool;
  framesDir : string;
  rowsWritten : Z
}.

(** A computation on the file system that may fail with an [error]. *)
Definition M (A : Type) : Type := FS -> FS * (A + error).
Definition ret {A} (a : A) : M A := fun fs => (fs, inl a).
Definition fail {A} (e : error) : M A := fun fs => (fs, inr e).
Definition bind {A B} (c : M A) (k : A -> M B) : M B :=
  fun fs =>
    match c fs with
    | (fs', inl a) => k a fs'
    | (fs', inr e) => (fs', inr e)
    end.

#[local] Instance M_ret : MRet M := @ret.
#[local] Instance M_bind : MBind M := fun A B k c => bind c k.

Definition open_csv (path : string) (bufSize : Z) (writeHeader : bool)
    (header : list string) : M views.CSVWriter.t :=
  fun fs => views.CSVWriter.NewCSVWriter fs path bufSize writeHeader header.

Definition mkdir_all (path : string) (what : string) : M unit :=
  fun fs =>
    match os_MkdirAll fs path with
    | (fs', Some e) => (fs', inr (what +:+ e))
    | (fs', None) => (fs', inl tt)
    end.

(** [if !Overwrite { if _, err := os.Stat(sessionDir); err == nil { return nil, ... } }] *)
Definition overwrite_guard (overwrite : bool) (sessionDir : string) : M unit :=
  fun fs =>
    if negb overwrite then
      match os_Stat fs sessionDir with
      | None =>
          (fs, inr ("session dir " +:+ sessionDir +:+ " already exists (overwrite=false)"))
      | Some _ => (fs, inl tt)
      end
    else (fs, inl tt).

(** [stamp] is the clock reading that [utils.SessionName] formats. *)
Definition NewRecordingController (stamp : string)
    (storageCfg : utils.StorageConfig.t) (sensorsCfg : utils.SensorsConfig.t) : M t :=
  let sess := utils.SessionName stamp (utils.StorageConfig.SessionPrefix storageCfg) in
  let sessionDir := filepath_Join [utils.StorageConfig.BaseDir storageCfg; sess] in
  _ ← overwrite_guard (utils.StorageConfig.Overwrite storageCfg) sessionDir ;
  _ ← mkdir_all sessionDir "create session dir: " ;
  let bufSize := wrap_i64 (utils.StorageConfig.BufferSizeKB storageCfg * 1024) in
  let hdr := utils.StorageConfig.WriteHeader storageCfg in
  fused ← open_csv (filepath_Join [sessionDir; "fused.csv"]) bufSize hdr
             FusedRecord.CSVHeader ;
  cam ← (if utils.CameraConfig.Enabled (utils.SensorsConfig.Camera sensorsCfg)
          then
            (w ← open_csv (filepath_Join [sessionDir; "camera.csv"]) bufSize hdr
                   CameraFrame.CSVHeader ;
             if utils.CameraConfig.SaveFrames (utils.SensorsConfig.Camera sensorsCfg)
             then
               (let framesDir :=
                  filepath_Join [sessionDir; utils.StorageConfig.SavePath storageCfg] in
                _ ← mkdir_all framesDir "create frames dir: " ;
                ret (Some w, framesDir, true))
             else ret (Some w, "", false))
          else ret (None, "", false)) ;
  lid ← (if utils.LidarConfig.Enabled (utils.SensorsConfig.Lidar sensorsCfg)
          then
            (w ← open_csv (filepath_Join [sessionDir; "lidar.csv"]) bufSize hdr
                   LidarPacket.CSVHeader ;
             ret (Some w))
          else ret None) ;
  gps ← (if utils.GPSConfig.Enabled (utils.SensorsConfig.GPS sensorsCfg)
          then
            (w ← open_csv (filepath_Join [sessionDir; "gps.csv"]) bufSize hdr
                   GPSData.CSVHeader ;
             ret (Some w))
          else ret None) ;
  imu ← (if utils.IMUConfig.Enabled (utils.SensorsConfig.IMU sensorsCfg)
          then
            (w ← open_csv (filepath_Join [sessionDir; "imu.csv"]) bufSize hdr
                   IMUData.CSVHeader ;
             ret (Some w))
          else ret None) ;
  rad ← (if utils.RadarConfig.Enabled (utils.SensorsConfig.Radar sensorsCfg)
          then
            (w ← open_csv (filepath_Join [sessionDir; "radar.csv"]) bufSize hdr
                   RadarTarget.CSVHeader ;
             ret (Some w))
          else ret None) ;
  ret (mk storageCfg sessionDir (Some fused) (cam.1.1) lid gps imu rad
          (cam.2) (cam.1.2) 0).

(** [w.WriteRow(row)] when the handle [w] is not nil. *)
Definition write_to (w : views.CSVWriter.t) (fs : FS) (row : list string)
  : option views.CSVWriter.t * FS :=
  let '(w', fs') := views.CSVWriter.WriteRow w fs row in (Some w', fs').

(** A frame write that was started with [go func(data, path) {...}] and
    has not run yet. *)
Record FrameSave := mkFrameSave { fs_data : list byte; fs_path : string }.

(** [writeRecord]: the record controller, the store and the file system
    after it, and the frame saves it started.  [None] is the nil-pointer
    panic of [rc.fusedWriter.WriteRow] on a controller without a fused
    writer, which [NewRecordingController] never returns. *)
Definition writeRecord (rc : t) (h : Store) (fs : FS) (rec : FusedRecord.t)
  : option (t * Store * FS * list FrameSave) :=
  match fusedWriter rc with
  | None => None
  | Some fw =>
      let '(fw', fs) := write_to fw fs (FusedRecord.CSVRow h rec) in
      let '(cw', h, fs, saves) :=
        match FusedRecord.Camera rec, cameraWriter rc with
        | Some a, Some cw =>
            let '(h, saves) :=
              if saveFrames rc && (0 <? length (CameraFrame.JPEG (camera_at h a)))%nat
              then
                let fname :=
                  strconv.FormatInt (CameraFrame.TimestampNs (camera_at h a)) +:+ ".jpg" in
                let fpath := filepath_Join [framesDir rc; fname] in
                let h' :=
                  set_camera_FilePath h a
                    (filepath_Join [utils.StorageConfig.SavePath (storageCfg rc); fname]) in
                (h', [mkFrameSave (CameraFrame.JPEG (camera_at h' a)) fpath])
              else (h, []) in
            let '(cw', fs) := write_to cw fs (CameraFrame.CSVRow (camera_at h a)) in
            (cw', h, fs, saves)
        | _, _ => (cameraWriter rc, h, fs, [])
        end in
      let '(lw', fs) :=
        match FusedRecord.Lidar rec, lidarWriter rc with
        | Some a, Some w => write_to w fs (LidarPacket.CSVRow (lidar_at h a))
        | _, _ => (lidarWriter rc, fs)
        end in
      let '(gw', fs) :=
        match FusedRecord.GPS rec, gpsWriter rc with
        | Some a, Some w => write_to w fs (GPSData.CSVRow (gps_at h a))
        | _, _ => (gpsWriter rc, fs)
        end in
      let '(iw', fs) :=
        match FusedRecord.IMU rec, imuWriter rc with
        | Some a, Some w => write_to w fs (IMUData.CSVRow (imu_at h a))
        | _, _ => (imuWriter rc, fs)
        end in
      let '(rw', fs) :=
        match FusedRecord.Radar rec, radarWriter rc with
        | Some a, Some w => write_to w fs (RadarTarget.CSVRow (radar_at h a))
        | _, _ => (radarWriter rc, fs)
        end in
      Some (mk (storageCfg rc) (sessionDir rc) fw' cw' lw' gw' iw' rw'
               (saveFrames rc) (framesDir rc) (wrap_u64 (rowsWritten rc + 1)),
            h, fs, saves)
  end.

(** The body of a frame save: [os.WriteFile(path, data, 0644)]; the error
    is logged and dropped. *)
Definition run_frame_save (fs : FS) (s : FrameSave) : FS :=
  fst (os_WriteFile fs (fs_path s) (fs_data s)).

Definition flush_opt (w : option views.CSVWriter.t) (fs : FS)
  : option views.CSVWriter.t * FS :=
  match w with
  | Some w => let '(w', fs') := views.CSVWriter.Flush w fs in (Some w', fs')
  | None => (None, fs)
  end.

Definition flushAll (rc : t) (fs : FS) : t * FS :=
  let '(fw, fs) := flush_opt (fusedWriter rc) fs in
  let '(cw, fs) := flush_opt (cameraWriter rc) fs in
  let '(lw, fs) := flush_opt (lidarWriter rc) fs in
  let '(gw, fs) := flush_opt (gpsWriter rc) fs in
  let '(iw, fs) := flush_opt (imuWriter rc) fs in
  let '(rw, fs) := flush_opt (radarWriter rc) fs in
  (mk (storageCfg rc) (sessionDir rc) fw cw lw gw iw rw
      (saveFrames rc) (framesDir rc) (rowsWritten rc), fs).

Definition close_opt (w : option views.CSVWriter.t) (fs : FS)
  : option views.CSVWriter.t * FS :=
  match w with
  | Some w => let '(w', fs') := views.CSVWriter.Close w fs in (Some w', fs')
  | None => (None, fs)
  end.

(** [Stop], once [rc.wg.Wait()] has returned. *)
Definition Stop (rc : t) (fs : FS) : t * FS :=
  let '(rc, fs) := flushAll rc fs in
  let '(fw, fs) := close_opt (fusedWriter rc) fs in
  let '(cw, fs) := close_opt (cameraWriter rc) fs in
  let '(lw, fs) := close_opt (lidarWriter rc) fs in
  let '(gw, fs) := close_opt (gpsWriter rc) fs in
  let '(iw, fs) := close_opt (imuWriter rc) fs in
  let '(rw, fs) := close_opt (radarWriter rc) fs in
  (mk (storageCfg rc) (sessionDir rc) fw cw lw gw iw rw
      (saveFrames rc) (framesDir rc) (rowsWritten rc), fs).

Definition SessionDir (rc : t) : string := sessionDir rc.
Definition RowsWritten (rc : t) : Z := rowsWritten rc.

End with_runtime.

End RecordingController.

End controller.

(** ** The sensor and fusion stages at run time (cmd/main.go)

    [main] starts the readers and the fusion controller and lets their
    goroutines run.  A state is the store of records, the two
    controllers, and for every goroutine the variables it holds between
    two synchronising operations; an [Event] is one goroutine making one
    such operation (a channel send or receive, a critical section of
    [fc.mu]), with the readings of the clock and of [math/rand] that go
    with it.  An event that cannot happen in a state (the goroutine has
    returned, its sensor is disabled, its receive would wait) leaves the
    state as it is.  The recording controller is the environment of this
    system: it receives from [fc.Out] and assigns [FilePath] of frames it
    received. *)

Module pipeline.

Import models controller.

Inductive Sensor := SCamera | SLidar | SGPS | SIMU | SRadar.

Inductive Goroutine :=
| GProducer (s : Sensor)
| GDrain (s : Sensor)
| GMerge.

#[export] Instance Sensor_eq_dec : EqDecision Sensor.
Proof. solve_decision. Defined.
#[export] Instance Goroutine_eq_dec : EqDecision Goroutine.
Proof. solve_decision. Defined.

Inductive Event :=
| CameraTick (ts rnd : Z)
| LidarTick (ts rnd : Z)
| GPSTick (ts : Z) (rf : nat -> float64) (ri : Z)
| IMUTick (ts : Z) (rf : nat -> float64)
| RadarTick (ts : Z) (rf : nat -> float64)
| ProducerDone (s : Sensor)          (* a reader takes [<-ctx.Done()] *)
| DrainRecv (s : Sensor)             (* a drain takes [<-ch] *)
| DrainStore (s : Sensor)            (* ... and stores what it received *)
| DrainDone (s : Sensor)
| MergeTick (now : Z)                (* the merge takes [<-ticker.C] and snapshots *)
| MergeSend                          (* ... and sends what it built *)
| MergeDone
| RecorderRecv                       (* the recorder takes [<-fusedCh] *)
| RecorderSetPath (a : ptr) (path : string)
| Cancel.

(** The variables the goroutines hold between two events: the locals of
    the five [run] loops, what each drain received and has not stored
    yet, and the record the merge built and has not sent yet. *)
Record Frames := mkFrames {
  f_camera : ingest.CameraReader.locals;
  f_lidar : ingest.LidarReader.locals;
  f_gps : ingest.GPSReader.locals;
  f_imu : ingest.IMUReader.locals;
  f_radar : ingest.RadarReader.locals;
  d_camera : option ptr;
  d_lidar : option ptr;
  d_gps : option ptr;
  d_imu : option ptr;
  d_radar : option ptr;
  m_rec : option FusedRecord.t
}.

Record System := mkSystem {
  store : Store;
  sensors : SensorsController.t;
  frames : Frames;
  fusion : FusionController.t;
  cancelled : bool;            (* [ctx.Done()] is closed *)
  exited : list Goroutine;          (* the goroutines that have returned *)
  panicked : bool
}.

Definition alive (st : System) (t : Goroutine) : bool := bool_decide (t ∉ exited st).

Definition set_store (h : Store) (st : System) : System :=
  mkSystem h (sensors st) (frames st) (fusion st) (cancelled st) (exited st) (panicked st).
Definition set_sensors (sc : SensorsController.t) (st : System) : System :=
  mkSystem (store st) sc (frames st) (fusion st) (cancelled st) (exited st) (panicked st).
Definition set_frames (f : Frames) (st : System) : System :=
  mkSystem (store st) (sensors st) f (fusion st) (cancelled st) (exited st) (panicked st).
Definition set_fusion (fc : FusionController.t) (st : System) : System :=
  mkSystem (store st) (sensors st) (frames st) fc (cancelled st) (exited st) (panicked st).
Definition set_cancelled (st : System) : System :=
  mkSystem (store st) (sensors st) (frames st) (fusion st) true (exited st) (panicked st).
Definition exit (t : Goroutine) (st : System) : System :=
  mkSystem (store st) (sensors st) (frames st) (fusion st) (cancelled st)
           (t :: exited st) (panicked st).
Definition panic (st : System) : System :=
  mkSystem (store st) (sensors st) (frames st) (fusion st) (cancelled st) (exited st) true.

Definition set_camera (r : ingest.CameraReader.t) (sc : SensorsController.t) :=
  SensorsController.mk (Some r) (SensorsController.lidar sc) (SensorsController.gps sc)
    (SensorsController.imu sc) (SensorsController.radar sc).
Definition set_lidar (r : ingest.LidarReader.t) (sc : SensorsController.t) :=
  SensorsController.mk (SensorsController.camera sc) (Some r) (SensorsController.gps sc)
    (SensorsController.imu sc) (SensorsController.radar sc).
Definition set_gps (r : ingest.GPSReader.t) (sc : SensorsController.t) :=
  SensorsController.mk (SensorsController.camera sc) (SensorsController.lidar sc) (Some r)
    (SensorsController.imu sc) (SensorsController.radar sc).
Definition set_imu (r : ingest.IMUReader.t) (sc : SensorsController.t) :=
  SensorsController.mk (SensorsController.camera sc) (SensorsController.lidar sc)
    (SensorsController.gps sc) (Some r) (SensorsController.radar sc).
Definition set_radar (r : ingest.RadarReader.t) (sc : SensorsController.t) :=
  SensorsController.mk (SensorsController.camera sc) (SensorsController.lidar sc)
    (SensorsController.gps sc) (SensorsController.imu sc) (Some r).

(** A reader whose channel a drain has received from. *)
Definition camera_Out (ch : channel.chan ptr) (r : ingest.CameraReader.t) :=
  ingest.CameraReader.mk (ingest.CameraReader.cfg r) (ingest.CameraReader.sim r) ch
    (ingest.CameraReader.dropped r) (ingest.CameraReader.produced r).
Definition lidar_Out (ch : channel.chan ptr) (r : ingest.LidarReader.t) :=
  ingest.LidarReader.mk (ingest.LidarReader.cfg r) (ingest.LidarReader.sim r) ch
    (ingest.LidarReader.dropped r) (ingest.LidarReader.produced r).
Definition gps_Out (ch : channel.chan ptr) (r : ingest.GPSReader.t) :=
  ingest.GPSReader.mk (ingest.GPSReader.cfg r) (ingest.GPSReader.sim r) ch
    (ingest.GPSReader.dropped r) (ingest.GPSReader.produced r).
Definition imu_Out (ch : channel.chan ptr) (r : ingest.IMUReader.t) :=
  ingest.IMUReader.mk (ingest.IMUReader.cfg r) (ingest.IMUReader.sim r) ch
    (ingest.IMUReader.dropped r) (ingest.IMUReader.produced r).
Definition radar_Out (ch : channel.chan ptr) (r : ingest.RadarReader.t) :=
  ingest.RadarReader.mk (ingest.RadarReader.cfg r) (ingest.RadarReader.sim r) ch
    (ingest.RadarReader.dropped r) (ingest.RadarReader.produced r).

(** The channel of sensor [s]: [sc.CameraCh] and its siblings. *)
Definition chan_of (s : Sensor) (sc : SensorsController.t) : option (channel.chan ptr) :=
  match s with
  | SCamera => SensorsController.CameraCh sc
  | SLidar => SensorsController.LidarCh sc
  | SGPS => SensorsController.GPSCh sc
  | SIMU => SensorsController.IMUCh sc
  | SRadar => SensorsController.RadarCh sc
  end.

Definition set_chan (s : Sensor) (ch : channel.chan ptr) (sc : SensorsController.t)
  : SensorsController.t :=
  match s with
  | SCamera =>
      match SensorsController.camera sc with
      | Some r => set_camera (camera_Out ch r) sc
      | None => sc
      end
  | SLidar =>
      match SensorsController.lidar sc with
      | Some r => set_lidar (lidar_Out ch r) sc
      | None => sc
      end
  | SGPS =>
      match SensorsController.gps sc with
      | Some r => set_gps (gps_Out ch r) sc
      | None => sc
      end
  | SIMU =>
      match SensorsController.imu sc with
      | Some r => set_imu (imu_Out ch r) sc
      | None => sc
      end
  | SRadar =>
      match SensorsController.radar sc with
      | Some r => set_radar (radar_Out ch r) sc
      | None => sc
      end
  end.

(** What the drain of sensor [s] holds, and the slot it stores into. *)
Definition held (s : Sensor) (f : Frames) : option ptr :=
  match s with
  | SCamera => d_camera f
  | SLidar => d_lidar f
  | SGPS => d_gps f
  | SIMU => d_imu f
  | SRadar => d_radar f
  end.

Definition set_held (s : Sensor) (v : option ptr) (f : Frames) : Frames :=
  match s with
  | SCamera => mkFrames (f_camera f) (f_lidar f) (f_gps f) (f_imu f) (f_radar f)
                 v (d_lidar f) (d_gps f) (d_imu f) (d_radar f) (m_rec f)
  | SLidar => mkFrames (f_camera f) (f_lidar f) (f_gps f) (f_imu f) (f_radar f)
                 (d_camera f) v (d_gps f) (d_imu f) (d_radar f) (m_rec f)
  | SGPS => mkFrames (f_camera f) (f_lidar f) (f_gps f) (f_imu f) (f_radar f)
                 (d_camera f) (d_lidar f) v (d_imu f) (d_radar f) (m_rec f)
  | SIMU => mkFrames (f_camera f) (f_lidar f) (f_gps f) (f_imu f) (f_radar f)
                 (d_camera f) (d_lidar f) (d_gps f) v (d_radar f) (m_rec f)
  | SRadar => mkFrames (f_camera f) (f_lidar f) (f_gps f) (f_imu f) (f_radar f)
                 (d_camera f) (d_lidar f) (d_gps f) (d_imu f) v (m_rec f)
  end.

Definition set_m_rec (v : option FusedRecord.t) (f : Frames) : Frames :=
  mkFrames (f_camera f) (f_lidar f) (f_gps f) (f_imu f) (f_radar f)
    (d_camera f) (d_lidar f) (d_gps f) (d_imu f) (d_radar f) v.

Definition set_locals_camera (l : ingest.CameraReader.locals) (f : Frames) : Frames :=
  mkFrames l (f_lidar f) (f_gps f) (f_imu f) (f_radar f)
    (d_camera f) (d_lidar f) (d_gps f) (d_imu f) (d_radar f) (m_rec f).
Definition set_locals_lidar (l : ingest.LidarReader.locals) (f : Frames) : Frames :=
  mkFrames (f_camera f) l (f_gps f) (f_imu f) (f_radar f)
    (d_camera f) (d_lidar f) (d_gps f) (d_imu f) (d_radar f) (m_rec f).
Definition set_locals_gps (l : ingest.GPSReader.locals) (f : Frames) : Frames :=
  mkFrames (f_camera f) (f_lidar f) l (f_imu f) (f_radar f)
    (d_camera f) (d_lidar f) (d_gps f) (d_imu f) (d_radar f) (m_rec f).
Definition set_locals_imu (l : ingest.IMUReader.locals) (f : Frames) : Frames :=
  mkFrames (f_camera f) (f_lidar f) (f_gps f) l (f_radar f)
    (d_camera f) (d_lidar f) (d_gps f) (d_imu f) (d_radar f) (m_rec f).
Definition set_locals_radar (l : ingest.RadarReader.locals) (f : Frames) : Frames :=
  mkFrames (f_camera f) (f_lidar f) (f_gps f) (f_imu f) l
    (d_camera f) (d_lidar f) (d_gps f) (d_imu f) (d_radar f) (m_rec f).

Definition drain_store (s : Sensor) (fc : FusionController.t) (v : ptr)
  : FusionController.t :=
  match s with
  | SCamera => FusionController.drainCamera fc v
  | SLidar => FusionController.drainLidar fc v
  | SGPS => FusionController.drainGPS fc v
  | SIMU => FusionController.drainIMU fc v
  | SRadar => FusionController.drainRadar fc v
  end.

Definition producer_done (s : Sensor) (sc : SensorsController.t) : SensorsController.t :=
  match s with
  | SCamera =>
      match SensorsController.camera sc with
      | Some r => set_camera (ingest.CameraReader.run_done r) sc
      | None => sc
      end
  | SLidar =>
      match SensorsController.lidar sc with
      | Some r => set_lidar (ingest.LidarReader.run_done r) sc
      | None => sc
      end
  | SGPS =>
      match SensorsController.gps sc with
      | Some r => set_gps (ingest.GPSReader.run_done r) sc
      | None => sc
      end
  | SIMU =>
      match SensorsController.imu sc with
      | Some r => set_imu (ingest.IMUReader.run_done r) sc
      | None => sc
      end
  | SRadar =>
      match SensorsController.radar sc with
      | Some r => set_radar (ingest.RadarReader.run_done r) sc
      | None => sc
      end
  end.

(** What a step shows to an observer: the record the merge built, and
    whether it went onto the fused queue. *)
Definition Label : Type := (FusedRecord.t * bool)%type.

Section with_runtime.
Context {RT : Runtime}.

Definition step (e : Event) (st : System) : System * list Label :=
  if panicked st then (st, []) else
  match e with
  | CameraTick ts rnd =>
      match SensorsController.camera (sensors st) with
      | Some r =>
          if alive st (GProducer SCamera) then
            let '(r', l', h', _) :=
              ingest.CameraReader.run_tick r (f_camera (frames st)) (store st) ts rnd in
            (set_store h'
               (set_sensors (set_camera r' (sensors st))
                  (set_frames (set_locals_camera l' (frames st)) st)), [])
          else (st, [])
      | None => (st, [])
      end
  | LidarTick ts rnd =>
      match SensorsController.lidar (sensors st) with
      | Some r =>
          if alive st (GProducer SLidar) then
            match ingest.LidarReader.run_tick r (f_lidar (frames st)) (store st) ts rnd with
            | None => (panic st, [])
            | Some (r', l', h', _) =>
                (set_store h'
                   (set_sensors (set_lidar r' (sensors st))
                      (set_frames (set_locals_lidar l' (frames st)) st)), [])
            end
          else (st, [])
      | None => (st, [])
      end
  | GPSTick ts rf ri =>
      match SensorsController.gps (sensors st) with
      | Some r =>
          if alive st (GProducer SGPS) then
            let '(r', l', h', _) :=
              ingest.GPSReader.run_tick r (f_gps (frames st)) (store st) ts rf ri in
            (set_store h'
               (set_sensors (set_gps r' (sensors st))
                  (set_frames (set_locals_gps l' (frames st)) st)), [])
          else (st, [])
      | None => (st, [])
      end
  | IMUTick ts rf =>
      match SensorsController.imu (sensors st) with
      | Some r =>
          if alive st (GProducer SIMU) then
            let '(r', l', h', _) :=
              ingest.IMUReader.run_tick r (f_imu (frames st)) (store st) ts rf in
            (set_store h'
               (set_sensors (set_imu r' (sensors st))
                  (set_frames (set_locals_imu l' (frames st)) st)), [])
          else (st, [])
      | None => (st, [])
      end
  | RadarTick ts rf =>
      match SensorsController.radar (sensors st) with
      | Some r =>
          if alive st (GProducer SRadar) then
            let '(r', l', h', _) :=
              ingest.RadarReader.run_tick r (f_radar (frames st)) (store st) ts rf in
            (set_store h'
               (set_sensors (set_radar r' (sensors st))
                  (set_frames (set_locals_radar l' (frames st)) st)), [])
          else (st, [])
      | None => (st, [])
      end
  | ProducerDone s =>
      if cancelled st && alive st (GProducer s)
      then (exit (GProducer s) (set_sensors (producer_done s (sensors st)) st), [])
      else (st, [])
  | DrainRecv s =>
      match chan_of s (sensors st), held s (frames st) with
      | Some ch, None =>
          if alive st (GDrain s) then
            match channel.recv ch with
            | None => (st, [])
            | Some (ch', None) => (exit (GDrain s) st, [])
            | Some (ch', Some v) =>
                (set_sensors (set_chan s ch' (sensors st))
                   (set_frames (set_held s (Some v) (frames st)) st), [])
            end
          else (st, [])
      | _, _ => (st, [])
      end
  | DrainStore s =>
      match held s (frames st) with
      | Some v =>
          (set_fusion (drain_store s (fusion st) v)
             (set_frames (set_held s None (frames st)) st), [])
      | None => (st, [])
      end
  | DrainDone s =>
      match held s (frames st) with
      | None =>
          if cancelled st && alive st (GDrain s) then (exit (GDrain s) st, []) else (st, [])
      | Some _ => (st, [])
      end
  | MergeTick now =>
      match m_rec (frames st) with
      | None =>
          if alive st GMerge then
            let '(fc, rec) := FusionController.merge_snapshot (fusion st) now in
            (set_fusion fc (set_frames (set_m_rec (Some rec) (frames st)) st), [])
          else (st, [])
      | Some _ => (st, [])
      end
  | MergeSend =>
      match m_rec (frames st) with
      | Some rec =>
          let '(fc, sent) := FusionController.merge_send (fusion st) rec in
          (set_fusion fc (set_frames (set_m_rec None (frames st)) st), [(rec, sent)])
      | None => (st, [])
      end
  | MergeDone =>
      match m_rec (frames st) with
      | None =>
          if cancelled st && alive st GMerge
          then (exit GMerge (set_fusion (FusionController.merge_done (fusion st)) st), [])
          else (st, [])
      | Some _ => (st, [])
      end
  | RecorderRecv =>
      match channel.recv (FusionController.Out (fusion st)) with
      | Some (ch, Some _) => (set_fusion (FusionController.with_Out ch (fusion st)) st, [])
      | _ => (st, [])
      end
  | RecorderSetPath a path =>
      (set_store (set_camera_FilePath (store st) a path) st, [])
  | Cancel => (set_cancelled st, [])
  end.

Fixpoint run (evs : list Event) (st : System) : System * list Label :=
  match evs with
  | [] => (st, [])
  | e :: evs' =>
      let '(st1, l1) := step e st in
      let '(st2, l2) := run evs' st1 in
      (st2, l1 ++ l2)
  end.

End with_runtime.

(** The state in which [main] enters its event loop: the controllers as
    their constructors return them, every loop at its first turn, no
    record allocated yet. *)
Definition boot (sensorsCfg : utils.SensorsConfig.t) (alignMs : Z) : System :=
  mkSystem empty_store
    (SensorsController.NewSensorsController sensorsCfg)
    (mkFrames ingest.CameraReader.run_enter ingest.LidarReader.run_enter
       ingest.GPSReader.run_enter ingest.IMUReader.run_enter
       ingest.RadarReader.run_enter None None None None None None)
    (FusionController.NewFusionController alignMs)
    false [] false.

(** The fused stream: the records that went onto [fc.Out], in order. *)
Definition fused_stream (ls : list Label) : list FusedRecord.t :=
  fst <$> filter (fun l => snd l = true) ls.

(** The component of sensor [s] in a fused record. *)
Definition component (s : Sensor) (rec : FusedRecord.t) : option ptr :=
  match s with
  | SCamera => FusedRecord.Camera rec
  | SLidar => FusedRecord.Lidar rec
  | SGPS => FusedRecord.GPS rec
  | SIMU => FusedRecord.IMU rec
  | SRadar => FusedRecord.Radar rec
  end.

End pipeline.

(** ** A runtime that computes

    A small file system (a flat map from paths to directories and files,
    on a device that accepts [room] more bytes), [filepath.Join] on clean
    path elements, and the csv encoding of fields that need no quoting.
    The three [math] functions are placeholders here: no statement below
    depends on their values. *)

Module sim.

Inductive Node := Dir | Reg (data : list models.byte).

Record Disk := mkDisk {
  nodes : gmap string Node;
  room : nat
}.

Definition Stat (d : Disk) (p : string) : option error :=
  match nodes d !! p with
  | Some _ => None
  | None => Some ("stat " +:+ p +:+ ": no such file or directory")
  end.

Definition MkdirAll (d : Disk) (p : string) : Disk * option error :=
  match nodes d !! p with
  | Some Dir => (d, None)
  | Some (Reg _) => (d, Some ("mkdir " +:+ p +:+ ": not a directory"))
  | None => (mkDisk (<[p := Dir]> (nodes d)) (room d), None)
  end.

Definition Create (d : Disk) (p : string) : Disk * (string + error) :=
  match nodes d !! p with
  | Some Dir => (d, inr ("open " +:+ p +:+ ": is a directory"))
  | _ => (mkDisk (<[p := Reg []]> (nodes d)) (room d), inl p)
  end.

Definition Write (f : string) (d : Disk) (p : list models.byte)
  : Disk * nat * option error :=
  match nodes d !! f with
  | Some (Reg old) =>
      let n := (length p `min` room d)%nat in
      (mkDisk (<[f := Reg (old ++ take n p)]> (nodes d)) (room d - n)%nat,
       n,
       if (n <? length p)%nat
       then Some ("write " +:+ f +:+ ": no space left on device") else None)
  | _ => (d, O, Some ("write " +:+ f +:+ ": bad file descriptor"))
  end.

Definition Close (f : string) (d : Disk) : Disk * option error := (d, None).

Definition WriteFile (d : Disk) (p : string) (data : list models.byte)
  : Disk * option error :=
  match Create d p with
  | (d', inr e) => (d', Some e)
  | (d', inl f) => let '(d'', _, e) := Write f d' data in (d'', e)
  end.

Definition contents (d : Disk) (p : string) : option (list models.byte) :=
  match nodes d !! p with
  | Some (Reg data) => Some data
  | _ => None
  end.

Fixpoint Join (elems : list string) : string :=
  match elems with
  | [] => ""
  | [e] => e
  | e :: rest => e +:+ "/" +:+ Join rest
  end.

Definition bytes (s : string) : list models.byte := list_byte_of_string s.

Fixpoint chunks_from (first : bool) (record : list string) : list (list models.byte) :=
  match record with
  | [] => [bytes (String (ascii_of_nat 10) "")]
  | f :: rest =>
      (if first then [] else [bytes ","]) ++ bytes f :: chunks_from false rest
  end.

Definition chunks (record : list string) : list (list models.byte) :=
  chunks_from true record.

Lemma Write_contract f d p d' n e :
  Write f d p = (d', n, e) ->
  (n <= length p)%nat /\ ((n < length p)%nat -> e <> None).
Proof.
  unfold Write. destruct (nodes d !! f) as [[|old]|]; intros [= <- <- <-];
    try (split; [lia | discriminate]).
  split; [lia|]. intros Hn.
  destruct (Nat.ltb_spec (length p `min` room d) (length p)); [discriminate | lia].
Qed.

#[export] Instance SimRuntime : Runtime := {|
  FS := Disk;
  File := string;
  os_Stat := Stat;
  os_MkdirAll := MkdirAll;
  os_Create := Create;
  os_WriteFile := WriteFile;
  file_Write := Write;
  file_Close := Close;
  file_contents := contents;
  filepath_Join := Join;
  csv_chunks := chunks;
  math_Sin := fun _ => models.fzero;
  math_Cos := fun _ => models.fzero;
  math_Mod := fun x _ => x;
  file_Write_contract := Write_contract
|}.

End sim.

(** ** What the specification says of a rendered cell *)

Module cell.

Definition is_digit (c : ascii) : bool :=
  let n := nat_of_ascii c in (48 <=? n)%nat && (n <=? 57)%nat.

Fixpoint all_digits (s : string) : bool :=
  match s with
  | EmptyString => true
  | String c t => is_digit c && all_digits t
  end.

(** The longest prefix of digits, and what follows it. *)
Fixpoint span_digits (s : string) : string * string :=
  match s with
  | EmptyString => (EmptyString, EmptyString)
  | String c t =>
      if is_digit c
      then let '(d, r) := span_digits t in (String c d, r)
      else (EmptyString, s)
  end.

(** A numeral with no padding: at least one digit, and no leading zero
    unless it is the single digit 0. *)
Definition plain_digits (s : string) : bool :=
  match s with
  | EmptyString => false
  | String c t =>
      all_digits s && (negb (Ascii.eqb c "0") || String.eqb t EmptyString)
  end.

Definition unsigned (s : string) : string :=
  match s with
  | String c t => if Ascii.eqb c "-" then t else s
  | EmptyString => s
  end.

(** An integer "rendered with no padding". *)
Definition plain_int (s : string) : bool := plain_digits (unsigned s).

(** "Fixed-point decimal" with exactly [p] decimals: an optional minus
    sign, an unpadded integer part, a point, and [p] digits. *)
Definition fixed_point (p : nat) (s : string) : bool :=
  let '(ip, rest) := span_digits (unsigned s) in
  plain_digits ip &&
  match rest with
  | String c fp => Ascii.eqb c "." && all_digits fp && (String.length fp =? p)%nat
  | EmptyString => false
  end.

Inductive Format := Int | Float (p : nat) | Text.









End cell.

(** * The notions the statements use *)

(** The columns of the fused row that belong to each component. *)
Definition camera_columns : list nat := [1; 2; 3; 4]%nat.
Definition lidar_columns : list nat := [5; 6; 7]%nat.
Definition gps_columns : list nat := [8; 9; 10; 11; 12]%nat.
Definition imu_columns : list nat := [13; 14; 15; 16; 17; 18]%nat.
Definition radar_columns : list nat := [19; 20; 21]%nat.

(** What the non-blocking send of one tick does to the queue [out] and to
    the counters [produced] and [dropped], for the record [v]. *)
Definition sent_or_dropped (out out' : channel.chan models.ptr)
    (produced produced' dropped dropped' : Z) (v : models.ptr) : Prop :=
  ((length (channel.queue out) < channel.cap out)%nat
   /\ out' = channel.mk (channel.queue out ++ [v]) (channel.cap out) (channel.closed out)
   /\ produced' = wrap_u64 (produced + 1) /\ dropped' = dropped)
  \/ ((channel.cap out <= length (channel.queue out))%nat
      /\ out' = out
      /\ produced' = produced /\ dropped' = wrap_u64 (dropped + 1)).

Import pipeline.

(** The number of records of sensor [s] that were allocated. *)
Definition arena_len (s : Sensor) (h : models.Store) : nat :=
  match s with
  | SCamera => length (models.cameras h)
  | SLidar => length (models.lidars h)
  | SGPS => length (models.gpss h)
  | SIMU => length (models.imus h)
  | SRadar => length (models.radars h)
  end.

(** The latest-value slot of sensor [s]. *)
Definition cell_of (s : Sensor) (fc : controller.FusionController.t) : option models.ptr :=
  match s with
  | SCamera => controller.FusionController.latestCamera fc
  | SLidar => controller.FusionController.latestLidar fc
  | SGPS => controller.FusionController.latestGPS fc
  | SIMU => controller.FusionController.latestIMU fc
  | SRadar => controller.FusionController.latestRadar fc
  end.

(** What the queue of sensor [s] holds; nothing when the sensor is
    disabled and has no queue. *)
Definition queue_of (s : Sensor) (sc : controller.SensorsController.t) : list models.ptr :=
  match chan_of s sc with
  | Some ch => channel.queue ch
  | None => []
  end.

(** The samples of sensor [s] that are on their way to a fused record:
    in the reader's queue, in the hands of the drain, in the slot, or in
    the record the merge has built and not sent yet. *)
Definition flight (s : Sensor) (st : System) : list models.ptr :=
  queue_of s (sensors st)
  ++ option_list (held s (frames st))
  ++ option_list (cell_of s (fusion st))
  ++ option_list (m_rec (frames st) ≫= component s).

(** The samples of sensor [s] in the records the merge has finished with,
    sent or dropped. *)
Definition built (s : Sensor) (ls : list Label) : list models.ptr :=
  omap (fun l => component s (fst l)) ls.

(** One step either allocates nothing for sensor [s], or exactly one
    record, at the next free address; and the samples that are in flight
    or built after it were already there before it, or are that record. *)
Definition advances (s : Sensor) (st st' : System) (l : list Label) : Prop :=
  let n := arena_len s (store st) in
  (arena_len s (store st') = n /\ flight s st' ++ built s l ⊆+ flight s st)
  \/ (arena_len s (store st') = S n /\ flight s st' ++ built s l ⊆+ n :: flight s st).

(** The event [e] is a tick of the reader of sensor [s]. *)
Definition tick_of (s : Sensor) (e : Event) : Prop :=
  match s, e with
  | SCamera, CameraTick _ _ => True
  | SLidar, LidarTick _ _ => True
  | SGPS, GPSTick _ _ _ => True
  | SIMU, IMUTick _ _ => True
  | SRadar, RadarTick _ _ => True
  | _, _ => False
  end.

(** The reader of sensor [s] exists and its [run] loop has not returned. *)
Definition reader_runs (s : Sensor) (st : System) : Prop :=
  is_Some (chan_of s (sensors st))
  /\ alive st (GProducer s) = true
  /\ panicked st = false.

(** No sample of sensor [s] is both in flight and built, none occurs
    twice, and each is the address of a record of the store. *)
Definition lane_ok (s : Sensor) (st : System) (ls : list Label) : Prop :=
  NoDup (flight s st ++ built s ls)
  /\ Forall (fun p => (p < arena_len s (store st))%nat) (flight s st ++ built s ls).

(** What the identifiers depend on: the three arenas of records that
    carry one, and the counters of the three [run] loops. *)
Definition id_view (st : System)
  : list models.CameraFrame.t * list models.LidarPacket.t * list models.RadarTarget.t
    * Z * Z * Z :=
  (models.cameras (store st), models.lidars (store st), models.radars (store st),
   ingest.CameraReader.seq (f_camera (frames st)),
   ingest.LidarReader.seq (f_lidar (frames st)),
   ingest.RadarReader.id (f_radar (frames st))).

(** How one step changes them: not at all, or one of the three loops
    creates a record with its counter as identifier and increments the
    counter, or the recorder assigns the [FilePath] of a frame. *)
Definition id_step (v v' : list models.CameraFrame.t * list models.LidarPacket.t
                            * list models.RadarTarget.t * Z * Z * Z) : Prop :=
  let '(c, li, r, sc, sl, ir) := v in
  v' = v
  \/ (exists f, models.CameraFrame.FrameID f = sc
                /\ v' = (c ++ [f], li, r, wrap_u64 (sc + 1), sl, ir))
  \/ (exists f, models.LidarPacket.PacketID f = sl
                /\ v' = (c, li ++ [f], r, sc, wrap_u64 (sl + 1), ir))
  \/ (exists f, models.RadarTarget.TargetID f = ir
                /\ v' = (c, li, r ++ [f], sc, sl, wrap_i64 (ir + 1)))
  \/ (exists a p,
        v' = (<[a := models.CameraFrame.with_FilePath p
                        (default models.CameraFrame.zero (c !! a))]> c,
              li, r, sc, sl, ir)).

(** The record at address [i] carries the identifier [i], reduced to the
    width of its Go type, and each counter is the number of records its
    loop has created. *)
Definition ids_ok (v : list models.CameraFrame.t * list models.LidarPacket.t
                       * list models.RadarTarget.t * Z * Z * Z) : Prop :=
  let '(c, li, r, sc, sl, ir) := v in
  (forall i f, c !! i = Some f ->
     models.CameraFrame.FrameID f = wrap_u64 (Z.of_nat i))
  /\ sc = wrap_u64 (Z.of_nat (length c))
  /\ (forall i f, li !! i = Some f ->
        models.LidarPacket.PacketID f = wrap_u64 (Z.of_nat i))
  /\ sl = wrap_u64 (Z.of_nat (length li))
  /\ (forall i f, r !! i = Some f ->
        models.RadarTarget.TargetID f = wrap_i64 (Z.of_nat i))
  /\ ir = wrap_i64 (Z.of_nat (length r)).

(** A buffered writer that has nothing left to hand down: its buffer is
    empty, or an error has stuck. *)
Definition settled (b : bufio.Writer) : Prop :=
  bufio.err b <> None \/ bufio.buf b = [].

(** [n] calls of [WriteRow] in a row, one per element of [rows]. *)
Fixpoint write_rows `{RT : Runtime} (w : views.CSVWriter.t) (fs : FS)
    (rows : list (list string)) : views.CSVWriter.t * FS :=
  match rows with
  | [] => (w, fs)
  | row :: rows' =>
      let '(w', fs') := views.CSVWriter.WriteRow w fs row in
      write_rows w' fs' rows'
  end.

(** [sub] occurs in [s]. *)
Definition contains (s sub : string) : Prop :=
  exists pre post, s = pre +:+ sub +:+ post.

(** The session directory that [NewRecordingController] computes. *)
Definition session_dir `{RT : Runtime} (stamp : string)
    (storageCfg : utils.StorageConfig.t) : string :=
  filepath_Join [utils.StorageConfig.BaseDir storageCfg;
                 utils.SessionName stamp (utils.StorageConfig.SessionPrefix storageCfg)].

(** Inputs for the examples. *)
Definition sample_storage : utils.StorageConfig.t :=
  utils.StorageConfig.mk "data" "drive" 100 256 true "frames" false.

Definition sample_sensors : utils.SensorsConfig.t :=
  utils.SensorsConfig.mk
    (utils.CameraConfig.mk true 120 30 1920 1080 "MJPEG" true)
    (utils.LidarConfig.mk false 256 "VLP-16" 600 384)
    (utils.GPSConfig.mk true 64 10)
    (utils.IMUConfig.mk false 512 100)
    (utils.RadarConfig.mk false 128)
    true 1.

Definition existing_session : sim.Disk :=
  sim.mkDisk (<["data/drive_20260214_153045" := sim.Dir]> (<["data" := sim.Dir]> ∅)) 4096.

(** What [writeRecord] does with a camera frame at address [a] when frames
    are saved: [old] is the frame's path when the record arrives, [new]
    the path that [writeRecord] assigns. *)
Definition path_assigned_after_fused_row `{RT : Runtime}
    (rc : controller.RecordingController.t) (h : models.Store) (fs : FS)
    (rec : models.FusedRecord.t) (fw cw : views.CSVWriter.t) (a : models.ptr) : Prop :=
  let old := models.CameraFrame.FilePath (models.camera_at h a) in
  let fname :=
    strconv.FormatInt (models.CameraFrame.TimestampNs (models.camera_at h a)) +:+ ".jpg" in
  let new :=
    filepath_Join [utils.StorageConfig.SavePath (controller.RecordingController.storageCfg rc);
                   fname] in
  let fused_row := models.FusedRecord.CSVRow h rec in
  let after_fused := views.CSVWriter.WriteRow fw fs fused_row in
  exists rc' h' fs' saves,
    controller.RecordingController.writeRecord rc h fs rec = Some (rc', h', fs', saves)
    (* the fused row is rendered from the store as it is on entry *)
    /\ controller.RecordingController.fusedWriter rc' = Some (fst after_fused)
    /\ fused_row !! 2%nat = Some old
    (* then the path is assigned *)
    /\ h' = models.set_camera_FilePath h a new
    /\ models.CameraFrame.FilePath (models.camera_at h' a) = new
    (* and the camera row is rendered from the store after that *)
    /\ controller.RecordingController.cameraWriter rc'
       = Some (fst (views.CSVWriter.WriteRow cw (snd after_fused)
                      (models.CameraFrame.CSVRow (models.camera_at h' a))))
    /\ models.CameraFrame.CSVRow (models.camera_at h' a) !! 5%nat = Some new
    /\ saves = [controller.RecordingController.mkFrameSave
                  (models.CameraFrame.JPEG (models.camera_at h a))
                  (filepath_Join [controller.RecordingController.framesDir rc; fname])].

Definition session0 : string := "data/drive_20260214_153045".

Definition writer0 (name : string) : views.CSVWriter.t (RT := sim.SimRuntime) :=
  views.CSVWriter.mk (RT := sim.SimRuntime) (session0 +:+ "/" +:+ name)
    (bufio.NewWriterSize (256 * 1024)) None 0.

Definition recorder0 : controller.RecordingController.t (RT := sim.SimRuntime) :=
  controller.RecordingController.mk (RT := sim.SimRuntime) sample_storage session0
    (Some (writer0 "fused.csv")) (Some (writer0 "camera.csv")) None None None None
    true (session0 +:+ "/frames") 0.

Definition disk0 : sim.Disk :=
  sim.mkDisk (<[session0 +:+ "/fused.csv" := sim.Reg []]>
             (<[session0 +:+ "/camera.csv" := sim.Reg []]>
             (<[session0 := sim.Dir]> ∅))) 4096.

Definition store0 : models.Store :=
  models.mkStore
    [models.CameraFrame.mk 1000 0 640 480 "MJPEG" "" 2 [Byte.xff; Byte.xd8]]
    [] [] [] [].

Definition record0 : models.FusedRecord.t :=
  models.FusedRecord.mk 2000 (Some 0%nat) None None None None.

(** * Properties *)

(** ** Machine integers *)

Lemma wrap_u64_small z : 0 <= z < 2 ^ 64 -> wrap_u64 z = z.
Proof. intros H. unfold wrap_u64. apply Z.mod_small. exact H. Qed.

Lemma wrap_u64_range z : 0 <= wrap_u64 z < 2 ^ 64.
Proof. unfold wrap_u64. apply Z.mod_pos_bound. reflexivity. Qed.

Lemma wrap_u64_succ_neq z : wrap_u64 (z + 1) <> z.
Proof.
  intros H. pose proof (wrap_u64_range (z + 1)) as R. rewrite H in R.
  unfold wrap_u64 in H.
  destruct (Z.eq_dec z (2 ^ 64 - 1)) as [->|Hne].
  - change (2 ^ 64 - 1 + 1) with (2 ^ 64) in H. rewrite Z.mod_same in H by lia. lia.
  - rewrite Z.mod_small in H by lia. lia.
Qed.

Lemma wrap_i64_small z : - 2 ^ 63 <= z < 2 ^ 63 -> wrap_i64 z = z.
Proof.
  intros H. unfold wrap_i64.
  rewrite Z.mod_small; [ring|].
  change (2 ^ 64) with (2 ^ 63 + 2 ^ 63). lia.
Qed.

(** ** The fused header and row (models/fused_record.go, views/csv_schema.go) *)

(** C2: the header of the fused CSV is exactly the 22 columns of the
    specification, in that order: [FusedRecord.CSVHeader] returns that
    list, and it is the entry of [SchemaColumns] for the fused sensor. *)
Theorem fused_header_exact :
  models.FusedRecord.CSVHeader =
    ["timestamp_ns"; "cam_frame_id"; "cam_file_path"; "cam_width"; "cam_height";
     "lidar_packet_id"; "lidar_num_points"; "lidar_cloud_path";
     "gps_lat"; "gps_lon"; "gps_alt"; "gps_speed"; "gps_heading";
     "imu_ax"; "imu_ay"; "imu_az"; "imu_gx"; "imu_gy"; "imu_gz";
     "radar_range"; "radar_azimuth"; "radar_velocity"]
  /\ length models.FusedRecord.CSVHeader = 22%nat
  /\ views.SchemaColumns !! views.SensorFused = Some models.FusedRecord.CSVHeader.
Proof. repeat split; vm_compute; reflexivity. Qed.

(** C3: a fused row has as many fields as the fused header, 22, and every
    column of a component that is nil holds the empty string (4 columns
    for the camera, 3 for the lidar, 5 for the GPS, 6 for the IMU, 3 for
    the radar), which is not the text "null". *)
Theorem fused_row_shape (h : models.Store) (f : models.FusedRecord.t) :
  length (models.FusedRecord.CSVRow h f) = length models.FusedRecord.CSVHeader
  /\ length (models.FusedRecord.CSVRow h f) = 22%nat
  /\ (models.FusedRecord.Camera f = None ->
      Forall (fun i => models.FusedRecord.CSVRow h f !! i = Some "") camera_columns)
  /\ (models.FusedRecord.Lidar f = None ->
      Forall (fun i => models.FusedRecord.CSVRow h f !! i = Some "") lidar_columns)
  /\ (models.FusedRecord.GPS f = None ->
      Forall (fun i => models.FusedRecord.CSVRow h f !! i = Some "") gps_columns)
  /\ (models.FusedRecord.IMU f = None ->
      Forall (fun i => models.FusedRecord.CSVRow h f !! i = Some "") imu_columns)
  /\ (models.FusedRecord.Radar f = None ->
      Forall (fun i => models.FusedRecord.CSVRow h f !! i = Some "") radar_columns)
  /\ length camera_columns = 4%nat /\ length lidar_columns = 3%nat
  /\ length gps_columns = 5%nat /\ length imu_columns = 6%nat
  /\ length radar_columns = 3%nat
  /\ "" <> "null".
Proof.
  unfold camera_columns, lidar_columns, gps_columns, imu_columns, radar_columns.
  destruct f as [ts [c|] [l|] [g|] [i|] [r|]];
    unfold models.FusedRecord.CSVRow; cbn;
    repeat split; try discriminate; intros _; repeat constructor.
Qed.

(** ** Numeric formatting (models/helpers.go and the [CSVRow] methods) *)






















Example cell_checks :
  cell.fixed_point 2 "12.34" = true
  /\ cell.fixed_point 2 "-0.05" = true
  /\ cell.fixed_point 2 "12.3" = false
  /\ cell.fixed_point 2 "12.345" = false
  /\ cell.fixed_point 2 "012.34" = false
  /\ cell.fixed_point 2 " 12.34" = false
  /\ cell.fixed_point 2 "NaN" = false
  /\ cell.fixed_point 2 "+Inf" = false
  /\ cell.plain_int "1739530225033000000" = true
  /\ cell.plain_int "-7" = true
  /\ cell.plain_int "007" = false
  /\ cell.plain_int " 7" = false
  /\ cell.plain_int "" = false.
Proof. repeat split. Qed.

Example gps_row_rendered :
  models.GPSData.CSVRow
    (models.GPSData.mk 1739530225033000000 f64.c12_9716 f64.c77_5946 f64.c920
       f64.c8 f64.c45 f64.c0_8 1 12)
  = ["1739530225033000000"; "12.971600000"; "77.594600000"; "920.000";
     "8.0000"; "45.00"; "0.80"; "1"; "12"].
Proof. vm_compute. reflexivity. Qed.

Example radar_row_rendered :
  models.RadarTarget.CSVRow
    (models.RadarTarget.mk 5 7 f64.c10 f64.cm30 f64.cm5 f64.cm15 f64.c0_0005)
  = ["5"; "7"; "10.000"; "-30.00"; "-5.00"; "-15.000"; "0.00"].
Proof. vm_compute. reflexivity. Qed.

Example nan_is_not_a_decimal :
  models.ftoa S754_nan 2 = "NaN" /\ models.ftoa (S754_infinity true) 3 = "-Inf".
Proof. split; reflexivity. Qed.

(** ** The readers (services/ingest) *)

Lemma try_send_cases {A} (ch : channel.chan A) (v : A) :
  ((length (channel.queue ch) < channel.cap ch)%nat
   /\ channel.try_send ch v
      = (channel.mk (channel.queue ch ++ [v]) (channel.cap ch) (channel.closed ch), true))
  \/ ((channel.cap ch <= length (channel.queue ch))%nat
      /\ channel.try_send ch v = (ch, false)).
Proof.
  unfold channel.try_send.
  destruct (Nat.ltb_spec (length (channel.queue ch)) (channel.cap ch)); [left|right]; auto.
Qed.

Lemma camera_tick_send r l h ts rnd r' l' h' v :
  ingest.CameraReader.run_tick r l h ts rnd = (r', l', h', v) ->
  sent_or_dropped (ingest.CameraReader.Out r) (ingest.CameraReader.Out r')
    (ingest.CameraReader.produced r) (ingest.CameraReader.produced r')
    (ingest.CameraReader.dropped r) (ingest.CameraReader.dropped r') v.
Proof.
  unfold ingest.CameraReader.run_tick.
  destruct (ingest.CameraReader.capture r h ts rnd _) as [h1 p].
  destruct (try_send_cases (ingest.CameraReader.Out r) p) as [[Hlt ->]|[Hge ->]];
    intros [= <- <- <- <-]; [left|right]; auto.
Qed.

Lemma lidar_tick_send `{RT : Runtime} r l h ts rnd r' l' h' v :
  ingest.LidarReader.run_tick r l h ts rnd = Some (r', l', h', v) ->
  sent_or_dropped (ingest.LidarReader.Out r) (ingest.LidarReader.Out r')
    (ingest.LidarReader.produced r) (ingest.LidarReader.produced r')
    (ingest.LidarReader.dropped r) (ingest.LidarReader.dropped r') v.
Proof.
  unfold ingest.LidarReader.run_tick.
  destruct (ingest.LidarReader.readPacket r h ts rnd _) as [[h1 p]|]; [|discriminate].
  destruct (try_send_cases (ingest.LidarReader.Out r) p) as [[Hlt ->]|[Hge ->]];
    intros [= <- <- <- <-]; [left|right]; auto.
Qed.

Lemma gps_tick_send r l h ts rf ri r' l' h' v :
  ingest.GPSReader.run_tick r l h ts rf ri = (r', l', h', v) ->
  sent_or_dropped (ingest.GPSReader.Out r) (ingest.GPSReader.Out r')
    (ingest.GPSReader.produced r) (ingest.GPSReader.produced r')
    (ingest.GPSReader.dropped r) (ingest.GPSReader.dropped r') v.
Proof.
  unfold ingest.GPSReader.run_tick.
  destruct (ingest.GPSReader.readFix r l h ts rf ri) as [[l1 h1] p].
  destruct (try_send_cases (ingest.GPSReader.Out r) p) as [[Hlt ->]|[Hge ->]];
    intros [= <- <- <- <-]; [left|right]; auto.
Qed.

Lemma imu_tick_send `{RT : Runtime} r l h ts rf r' l' h' v :
  ingest.IMUReader.run_tick r l h ts rf = (r', l', h', v) ->
  sent_or_dropped (ingest.IMUReader.Out r) (ingest.IMUReader.Out r')
    (ingest.IMUReader.produced r) (ingest.IMUReader.produced r')
    (ingest.IMUReader.dropped r) (ingest.IMUReader.dropped r') v.
Proof.
  unfold ingest.IMUReader.run_tick.
  destruct (ingest.IMUReader.read r h ts rf _) as [h1 p].
  destruct (try_send_cases (ingest.IMUReader.Out r) p) as [[Hlt ->]|[Hge ->]];
    intros [= <- <- <- <-]; [left|right]; auto.
Qed.

Lemma radar_tick_send r l h ts rf r' l' h' v :
  ingest.RadarReader.run_tick r l h ts rf = (r', l', h', v) ->
  sent_or_dropped (ingest.RadarReader.Out r) (ingest.RadarReader.Out r')
    (ingest.RadarReader.produced r) (ingest.RadarReader.produced r')
    (ingest.RadarReader.dropped r) (ingest.RadarReader.dropped r') v.
Proof.
  unfold ingest.RadarReader.run_tick.
  destruct (ingest.RadarReader.readTarget r h ts rf _) as [h1 p].
  destruct (try_send_cases (ingest.RadarReader.Out r) p) as [[Hlt ->]|[Hge ->]];
    intros [= <- <- <- <-]; [left|right]; auto.
Qed.

Lemma length_snoc {A} (l : list A) (x : A) : length (l ++ [x]) = S (length l).
Proof. rewrite length_app. simpl. lia. Qed.

Lemma camera_tick_alloc r l h ts rnd r' l' h' v :
  ingest.CameraReader.run_tick r l h ts rnd = (r', l', h', v) ->
  exists f,
    h' = models.mkStore (models.cameras h ++ [f]) (models.lidars h) (models.gpss h)
           (models.imus h) (models.radars h)
    /\ v = length (models.cameras h)
    /\ models.CameraFrame.FrameID f = ingest.CameraReader.seq l
    /\ models.CameraFrame.FilePath f = ""
    /\ ingest.CameraReader.seq l' = wrap_u64 (ingest.CameraReader.seq l + 1).
Proof.
  unfold ingest.CameraReader.run_tick, ingest.CameraReader.capture, models.new_camera.
  destruct (ingest.CameraReader.sim r);
    destruct (channel.try_send _ _) as [ch []]; intros [= <- <- <- <-];
    eexists; repeat split.
Qed.

Lemma lidar_tick_alloc `{RT : Runtime} r l h ts rnd r' l' h' v :
  ingest.LidarReader.run_tick r l h ts rnd = Some (r', l', h', v) ->
  exists f,
    h' = models.mkStore (models.cameras h) (models.lidars h ++ [f]) (models.gpss h)
           (models.imus h) (models.radars h)
    /\ v = length (models.lidars h)
    /\ models.LidarPacket.PacketID f = ingest.LidarReader.seq l
    /\ ingest.LidarReader.seq l' = wrap_u64 (ingest.LidarReader.seq l + 1).
Proof.
  unfold ingest.LidarReader.run_tick, ingest.LidarReader.readPacket, models.new_lidar.
  destruct (ingest.LidarReader.sim r); [destruct (_ <? 0)|]; try discriminate;
    destruct (channel.try_send _ _) as [ch []]; intros [= <- <- <- <-];
    eexists; repeat split.
Qed.

Lemma gps_tick_alloc r l h ts rf ri r' l' h' v :
  ingest.GPSReader.run_tick r l h ts rf ri = (r', l', h', v) ->
  exists f,
    h' = models.mkStore (models.cameras h) (models.lidars h) (models.gpss h ++ [f])
           (models.imus h) (models.radars h)
    /\ v = length (models.gpss h).
Proof.
  unfold ingest.GPSReader.run_tick, ingest.GPSReader.readFix, models.new_gps.
  destruct (ingest.GPSReader.sim r);
    destruct (channel.try_send _ _) as [ch []]; intros [= <- <- <- <-];
    eexists; repeat split.
Qed.

Lemma imu_tick_alloc `{RT : Runtime} r l h ts rf r' l' h' v :
  ingest.IMUReader.run_tick r l h ts rf = (r', l', h', v) ->
  exists f,
    h' = models.mkStore (models.cameras h) (models.lidars h) (models.gpss h)
           (models.imus h ++ [f]) (models.radars h)
    /\ v = length (models.imus h).
Proof.
  unfold ingest.IMUReader.run_tick, ingest.IMUReader.read, models.new_imu.
  destruct (ingest.IMUReader.sim r);
    destruct (channel.try_send _ _) as [ch []]; intros [= <- <- <- <-];
    eexists; repeat split.
Qed.

Lemma radar_tick_alloc r l h ts rf r' l' h' v :
  ingest.RadarReader.run_tick r l h ts rf = (r', l', h', v) ->
  exists f,
    h' = models.mkStore (models.cameras h) (models.lidars h) (models.gpss h)
           (models.imus h) (models.radars h ++ [f])
    /\ v = length (models.radars h)
    /\ models.RadarTarget.TargetID f = ingest.RadarReader.id l
    /\ ingest.RadarReader.id l' = wrap_i64 (ingest.RadarReader.id l + 1).
Proof.
  unfold ingest.RadarReader.run_tick, ingest.RadarReader.readTarget, models.new_radar.
  destruct (ingest.RadarReader.sim r);
    destruct (channel.try_send _ _) as [ch []]; intros [= <- <- <- <-];
    eexists; repeat split.
Qed.

Lemma tick_always_taken `{RT : Runtime} s e st :
  tick_of s e -> reader_runs s st ->
  panicked (fst (step e st)) = true
  \/ arena_len s (store (fst (step e st))) = S (arena_len s (store st)).
Proof.
  intros Ht (Hch & Hal & Hp). unfold step. rewrite Hp.
  destruct st as [h [cam lid gps imu rad] fr fc can ex pan].
  unfold chan_of, controller.SensorsController.CameraCh,
    controller.SensorsController.LidarCh, controller.SensorsController.GPSCh,
    controller.SensorsController.IMUCh, controller.SensorsController.RadarCh in Hch.
  cbn [sensors frames store controller.SensorsController.camera
       controller.SensorsController.lidar controller.SensorsController.gps
       controller.SensorsController.imu controller.SensorsController.radar] in *.
  destruct s, e; try contradiction; rewrite Hal.
  - destruct cam as [r|]; [|destruct Hch; discriminate].
    destruct (ingest.CameraReader.run_tick _ _ _ _ _) as [[[r' l'] h'] v] eqn:E.
    destruct (camera_tick_alloc _ _ _ _ _ _ _ _ _ E) as (f & -> & _).
    right. cbn. apply length_snoc.
  - destruct lid as [r|]; [|destruct Hch; discriminate].
    destruct (ingest.LidarReader.run_tick _ _ _ _ _) as [[[[r' l'] h'] v]|] eqn:E;
      [|left; reflexivity].
    destruct (lidar_tick_alloc _ _ _ _ _ _ _ _ _ E) as (f & -> & _).
    right. cbn. apply length_snoc.
  - destruct gps as [r|]; [|destruct Hch; discriminate].
    destruct (ingest.GPSReader.run_tick _ _ _ _ _ _) as [[[r' l'] h'] v] eqn:E.
    destruct (gps_tick_alloc _ _ _ _ _ _ _ _ _ _ E) as (f & -> & _).
    right. cbn. apply length_snoc.
  - destruct imu as [r|]; [|destruct Hch; discriminate].
    destruct (ingest.IMUReader.run_tick _ _ _ _ _) as [[[r' l'] h'] v] eqn:E.
    destruct (imu_tick_alloc _ _ _ _ _ _ _ _ _ E) as (f & -> & _).
    right. cbn. apply length_snoc.
  - destruct rad as [r|]; [|destruct Hch; discriminate].
    destruct (ingest.RadarReader.run_tick _ _ _ _ _) as [[[r' l'] h'] v] eqn:E.
    destruct (radar_tick_alloc _ _ _ _ _ _ _ _ _ E) as (f & -> & _).
    right. cbn. apply length_snoc.
Qed.

(** C4: for every producer and every record [v] it produces, the send
    onto its queue does not wait, and exactly one counter changes: with
    free space [v] is enqueued and [produced] goes up by one, on a full
    queue [v] is discarded and [dropped] goes up by one.  The tick is a
    function of the state: it yields its result whatever the queue holds
    (the lidar's allocation may panic before the send is reached), and
    in the running program a tick of a reader that has not returned is
    taken in every state: it creates its record. *)
Theorem producer_send_never_blocks `{RT : Runtime} :
  (forall r l h ts rnd,
     let '(r', _, _, v) := ingest.CameraReader.run_tick r l h ts rnd in
     sent_or_dropped (ingest.CameraReader.Out r) (ingest.CameraReader.Out r')
       (ingest.CameraReader.produced r) (ingest.CameraReader.produced r')
       (ingest.CameraReader.dropped r) (ingest.CameraReader.dropped r') v)
  /\ (forall r l h ts rnd,
     match ingest.LidarReader.run_tick r l h ts rnd with
     | Some (r', _, _, v) =>
         sent_or_dropped (ingest.LidarReader.Out r) (ingest.LidarReader.Out r')
           (ingest.LidarReader.produced r) (ingest.LidarReader.produced r')
           (ingest.LidarReader.dropped r) (ingest.LidarReader.dropped r') v
     | None =>
         ingest.LidarReader.readPacket r h ts rnd (ingest.LidarReader.seq l) = None
     end)
  /\ (forall r l h ts rf ri,
     let '(r', _, _, v) := ingest.GPSReader.run_tick r l h ts rf ri in
     sent_or_dropped (ingest.GPSReader.Out r) (ingest.GPSReader.Out r')
       (ingest.GPSReader.produced r) (ingest.GPSReader.produced r')
       (ingest.GPSReader.dropped r) (ingest.GPSReader.dropped r') v)
  /\ (forall r l h ts rf,
     let '(r', _, _, v) := ingest.IMUReader.run_tick r l h ts rf in
     sent_or_dropped (ingest.IMUReader.Out r) (ingest.IMUReader.Out r')
       (ingest.IMUReader.produced r) (ingest.IMUReader.produced r')
       (ingest.IMUReader.dropped r) (ingest.IMUReader.dropped r') v)
  /\ (forall r l h ts rf,
     let '(r', _, _, v) := ingest.RadarReader.run_tick r l h ts rf in
     sent_or_dropped (ingest.RadarReader.Out r) (ingest.RadarReader.Out r')
       (ingest.RadarReader.produced r) (ingest.RadarReader.produced r')
       (ingest.RadarReader.dropped r) (ingest.RadarReader.dropped r') v)
  /\ (forall z, wrap_u64 (z + 1) <> z)
  /\ (forall z, 0 <= z < max_u64 -> wrap_u64 (z + 1) = z + 1)
  /\ (forall s e st,
        tick_of s e -> reader_runs s st ->
        panicked (fst (step e st)) = true
        \/ arena_len s (store (fst (step e st))) = S (arena_len s (store st))).
Proof.
  repeat split; try apply tick_always_taken.
  - intros. destruct (ingest.CameraReader.run_tick _ _ _ _ _) as [[[r' l'] h'] v] eqn:E.
    eapply camera_tick_send; eauto.
  - intros. destruct (ingest.LidarReader.run_tick _ _ _ _ _) as [[[[r' l'] h'] v]|] eqn:E.
    + eapply lidar_tick_send; eauto.
    + unfold ingest.LidarReader.run_tick in E.
      destruct (ingest.LidarReader.readPacket r h ts rnd _) as [[h1 p]|]; [|reflexivity].
      destruct (channel.try_send _ _) as [ch []]; discriminate.
  - intros. destruct (ingest.GPSReader.run_tick _ _ _ _ _ _) as [[[r' l'] h'] v] eqn:E.
    eapply gps_tick_send; eauto.
  - intros. destruct (ingest.IMUReader.run_tick _ _ _ _ _) as [[[r' l'] h'] v] eqn:E.
    eapply imu_tick_send; eauto.
  - intros. destruct (ingest.RadarReader.run_tick _ _ _ _ _) as [[[r' l'] h'] v] eqn:E.
    eapply radar_tick_send; eauto.
  - apply wrap_u64_succ_neq.
  - intros z Hz. apply wrap_u64_small. unfold max_u64 in Hz. lia.
Qed.

Example camera_tick_on_full_queue :
  let r := ingest.CameraReader.mk (utils.CameraConfig.mk true 2 30 640 480 "MJPEG" false)
             false (channel.mk [0%nat; 1%nat] 2 false) 0 2 in
  let h := models.mkStore [models.CameraFrame.zero; models.CameraFrame.zero] [] [] [] [] in
  let '(r', l', h', v) :=
    ingest.CameraReader.run_tick r (ingest.CameraReader.mkLocals 2) h 77 0 in
  ingest.CameraReader.Stats r' = (2, 1)
  /\ channel.queue (ingest.CameraReader.Out r') = [0%nat; 1%nat]
  /\ v = 2%nat /\ ingest.CameraReader.seq l' = 3.
Proof. vm_compute. repeat split. Qed.

(** ** The sensor and fusion stages: what every run preserves *)

Lemma advances_refl s st : advances s st st [].
Proof. left. split; [reflexivity|]. unfold built. simpl. rewrite app_nil_r. reflexivity. Qed.

Ltac sent_cases H :=
  destruct H as [(_ & -> & _ & _) | (_ & -> & _ & _)].

Ltac unfold_lanes :=
  unfold advances, flight, built, queue_of, chan_of, set_chan, arena_len, cell_of, held,
    set_held, component, producer_done, drain_store,
    controller.SensorsController.CameraCh, controller.SensorsController.LidarCh,
    controller.SensorsController.GPSCh, controller.SensorsController.IMUCh,
    controller.SensorsController.RadarCh.

Ltac close_advances :=
  unfold_lanes; cbn;
  rewrite ?length_snoc, ?length_insert;
  first [ left; split; [reflexivity | solve_submseteq]
        | right; split; [reflexivity | solve_submseteq] ].

Ltac stay := intros [= <- <-]; apply advances_refl.

Lemma step_advances `{RT : Runtime} e st st' l s :
  step e st = (st', l) -> advances s st st' l.
Proof.
  unfold step. destruct (panicked st) eqn:Hp; [stay|].
  destruct st as [h sc fr fc can ex pan]. cbn [sensors frames fusion store cancelled].
  destruct sc as [cam lid gps imu rad].
  destruct e.
  - (* CameraTick *)
    cbn [controller.SensorsController.camera].
    destruct cam as [r|]; [|stay].
    destruct (alive _ _); [|stay].
    destruct (ingest.CameraReader.run_tick _ _ _ _ _) as [[[r' l'] h'] v] eqn:E.
    intros [= <- <-].
    destruct (camera_tick_alloc _ _ _ _ _ _ _ _ _ E) as (f & -> & -> & _).
    pose proof (camera_tick_send _ _ _ _ _ _ _ _ _ E) as S.
    destruct r as [cfg sim out d p], r' as [cfg' sim' out' d' p']. cbn in S.
    sent_cases S; destruct s; close_advances.
  - (* LidarTick *)
    cbn [controller.SensorsController.lidar].
    destruct lid as [r|]; [|stay].
    destruct (alive _ _); [|stay].
    destruct (ingest.LidarReader.run_tick _ _ _ _ _) as [[[[r' l'] h'] v]|] eqn:E;
      [|intros [= <- <-]; destruct s; close_advances].
    intros [= <- <-].
    destruct (lidar_tick_alloc _ _ _ _ _ _ _ _ _ E) as (f & -> & -> & _).
    pose proof (lidar_tick_send _ _ _ _ _ _ _ _ _ E) as S.
    destruct r as [cfg sim out d p], r' as [cfg' sim' out' d' p']. cbn in S.
    sent_cases S; destruct s; close_advances.
  - (* GPSTick *)
    cbn [controller.SensorsController.gps].
    destruct gps as [r|]; [|stay].
    destruct (alive _ _); [|stay].
    destruct (ingest.GPSReader.run_tick _ _ _ _ _ _) as [[[r' l'] h'] v] eqn:E.
    intros [= <- <-].
    destruct (gps_tick_alloc _ _ _ _ _ _ _ _ _ _ E) as (f & -> & ->).
    pose proof (gps_tick_send _ _ _ _ _ _ _ _ _ _ E) as S.
    destruct r as [cfg sim out d p], r' as [cfg' sim' out' d' p']. cbn in S.
    sent_cases S; destruct s; close_advances.
  - (* IMUTick *)
    cbn [controller.SensorsController.imu].
    destruct imu as [r|]; [|stay].
    destruct (alive _ _); [|stay].
    destruct (ingest.IMUReader.run_tick _ _ _ _ _) as [[[r' l'] h'] v] eqn:E.
    intros [= <- <-].
    destruct (imu_tick_alloc _ _ _ _ _ _ _ _ _ E) as (f & -> & ->).
    pose proof (imu_tick_send _ _ _ _ _ _ _ _ _ E) as S.
    destruct r as [cfg sim out d p], r' as [cfg' sim' out' d' p']. cbn in S.
    sent_cases S; destruct s; close_advances.
  - (* RadarTick *)
    cbn [controller.SensorsController.radar].
    destruct rad as [r|]; [|stay].
    destruct (alive _ _); [|stay].
    destruct (ingest.RadarReader.run_tick _ _ _ _ _) as [[[r' l'] h'] v] eqn:E.
    intros [= <- <-].
    destruct (radar_tick_alloc _ _ _ _ _ _ _ _ _ E) as (f & -> & -> & _).
    pose proof (radar_tick_send _ _ _ _ _ _ _ _ _ E) as S.
    destruct r as [cfg sim out d p], r' as [cfg' sim' out' d' p']. cbn in S.
    sent_cases S; destruct s; close_advances.
  - (* ProducerDone *)
    destruct (can && alive _ _); [|stay].
    intros [= <- <-].
    destruct s0, cam as [[]|], lid as [[]|], gps as [[]|], imu as [[]|], rad as [[]|];
      destruct s; close_advances.
  - (* DrainRecv *)
    destruct (chan_of s0 _) as [ch|] eqn:Hch; [|stay].
    destruct (held s0 fr) eqn:Hh; [stay|].
    destruct (alive _ _); [|stay].
    unfold channel.recv. destruct ch as [q c cl].
    cbn [channel.queue channel.cap channel.closed].
    destruct q as [|v q]; [destruct cl; intros [= <- <-]; destruct s; close_advances|].
    intros [= <- <-].
    destruct fr as [fc1 fc2 fc3 fc4 fc5 d1 d2 d3 d4 d5 m].
    destruct s0; cbn in Hh; subst;
      unfold chan_of, controller.SensorsController.CameraCh,
        controller.SensorsController.LidarCh, controller.SensorsController.GPSCh,
        controller.SensorsController.IMUCh, controller.SensorsController.RadarCh in Hch;
      cbn in Hch;
      [ destruct cam as [[]|] | destruct lid as [[]|] | destruct gps as [[]|]
      | destruct imu as [[]|] | destruct rad as [[]|] ];
      cbn in Hch; simplify_eq; destruct s; close_advances.
  - (* DrainStore *)
    destruct (held s0 fr) as [v|] eqn:Hh; [|stay].
    intros [= <- <-].
    destruct fr as [fc1 fc2 fc3 fc4 fc5 d1 d2 d3 d4 d5 m].
    destruct fc as [c1 c2 c3 c4 c5 out al].
    destruct s0; cbn in Hh; subst; destruct s; close_advances.
  - (* DrainDone *)
    destruct (held s0 fr); [stay|].
    destruct (can && alive _ _); [|stay].
    intros [= <- <-]. destruct s; close_advances.
  - (* MergeTick *)
    destruct (m_rec fr) eqn:Hm; [stay|].
    destruct (alive _ _); [|stay].
    unfold controller.FusionController.merge_snapshot.
    intros [= <- <-].
    destruct fr as [fc1 fc2 fc3 fc4 fc5 d1 d2 d3 d4 d5 m]. cbn in Hm; subst m.
    destruct fc as [c1 c2 c3 c4 c5 out al].
    destruct s; close_advances.
  - (* MergeSend *)
    destruct (m_rec fr) as [rec|] eqn:Hm; [|stay].
    unfold controller.FusionController.merge_send.
    destruct fr as [fc1 fc2 fc3 fc4 fc5 d1 d2 d3 d4 d5 m]. cbn in Hm; subst m.
    destruct fc as [c1 c2 c3 c4 c5 out al].
    destruct rec as [ts rc rl rg ri rr].
    destruct (channel.try_send _ _) as [ch []]; intros [= <- <-];
      destruct s; unfold_lanes; cbn;
      (left; split; [reflexivity|]);
      repeat match goal with
             | |- context [option_list ?o] => is_var o; destruct o
             end; cbn; solve_submseteq.
  - (* MergeDone *)
    destruct (m_rec fr); [stay|].
    destruct (can && alive _ _); [|stay].
    intros [= <- <-]. destruct fc. destruct s; close_advances.
  - (* RecorderRecv *)
    destruct (channel.recv _) as [[ch [rec|]]|]; try stay.
    intros [= <- <-]. destruct fc. destruct s; close_advances.
  - (* RecorderSetPath *)
    intros [= <- <-]. destruct s; close_advances.
  - (* Cancel *)
    intros [= <- <-]. destruct s; close_advances.
Qed.

Lemma submseteq_NoDup {A} (l k : list A) : l ⊆+ k -> NoDup k -> NoDup l.
Proof.
  intros [k' Hk]%submseteq_Permutation Hnd. rewrite Hk in Hnd.
  apply NoDup_app in Hnd as [H _]. exact H.
Qed.

Lemma submseteq_Forall {A} (P : A -> Prop) (l k : list A) :
  l ⊆+ k -> Forall P k -> Forall P l.
Proof.
  intros Hlk Hk. apply Forall_forall. intros x Hx.
  eapply Forall_forall in Hk; [exact Hk|]. eapply elem_of_submseteq; eauto.
Qed.

Lemma built_app s l1 l2 : built s (l1 ++ l2) = built s l1 ++ built s l2.
Proof. apply omap_app. Qed.

Lemma lane_ok_step `{RT : Runtime} e st st' l s pre :
  lane_ok s st pre -> step e st = (st', l) -> lane_ok s st' (pre ++ l).
Proof.
  intros [Hnd Hlt] Hstep. unfold lane_ok. rewrite built_app.
  destruct (step_advances _ _ _ _ s Hstep) as [[Hn Hsub]|[Hn Hsub]]; rewrite Hn.
  - assert (Hall : flight s st' ++ built s pre ++ built s l ⊆+ flight s st ++ built s pre).
    { etransitivity; [|apply submseteq_skips_r, Hsub]. solve_submseteq. }
    split; [eapply submseteq_NoDup | eapply submseteq_Forall]; eauto.
  - assert (Hall : flight s st' ++ built s pre ++ built s l
                   ⊆+ arena_len s (store st) :: (flight s st ++ built s pre)).
    { change (arena_len s (store st) :: flight s st ++ built s pre)
        with ((arena_len s (store st) :: flight s st) ++ built s pre).
      etransitivity; [|apply submseteq_skips_r, Hsub]. solve_submseteq. }
    split.
    + eapply submseteq_NoDup; [exact Hall|]. apply NoDup_cons. split; [|exact Hnd].
      intros Hin. eapply Forall_forall in Hlt; [|exact Hin]. lia.
    + eapply submseteq_Forall; [exact Hall|]. constructor; [lia|].
      eapply Forall_impl; [exact Hlt|]. intros; simpl in *; lia.
Qed.

Lemma lane_ok_run `{RT : Runtime} evs : forall st st' ls s pre,
  lane_ok s st pre -> run evs st = (st', ls) -> lane_ok s st' (pre ++ ls).
Proof.
  induction evs as [|e evs IH]; intros st st' ls s pre Hok; cbn [run].
  - intros [= <- <-]. rewrite app_nil_r. exact Hok.
  - destruct (step e st) as [st1 l1] eqn:E1.
    destruct (run evs st1) as [st2 l2] eqn:E2. intros [= <- <-].
    rewrite app_assoc. eapply IH; [|exact E2]. eapply lane_ok_step; eauto.
Qed.

Lemma lane_ok_boot cfg alignMs s : lane_ok s (boot cfg alignMs) [].
Proof.
  assert (flight s (boot cfg alignMs) = []) as E.
  { unfold flight, boot, queue_of, chan_of, controller.SensorsController.NewSensorsController,
      controller.SensorsController.CameraCh, controller.SensorsController.LidarCh,
      controller.SensorsController.GPSCh, controller.SensorsController.IMUCh,
      controller.SensorsController.RadarCh.
    destruct cfg as [[c1] [c2] [c3] [c4] [c5] sim dur].
    destruct s, c1, c2, c3, c4, c5; reflexivity. }
  unfold lane_ok. rewrite E. split; constructor.
Qed.

Lemma built_fmap s ls : built s ls = omap (component s) (fst <$> ls).
Proof.
  unfold built. induction ls as [|[rec sent] ls IH]; [reflexivity|].
  simpl. destruct (component s rec); [f_equal|]; exact IH.
Qed.

Lemma stream_sublist_built s ls :
  omap (component s) (fused_stream ls) `sublist_of` built s ls.
Proof.
  unfold fused_stream, built.
  induction ls as [|[rec sent] ls IH]; [constructor|].
  rewrite filter_cons. simpl.
  destruct (decide (sent = true)) as [->|Hs]; simpl;
    destruct (component s rec); try exact IH.
  - apply sublist_skip. exact IH.
  - apply sublist_cons. exact IH.
Qed.

Lemma omap_NoDup_lookup {A B} (f : A -> option B) (l : list A) :
  NoDup (omap f l) ->
  forall i j x y b,
    l !! i = Some x -> l !! j = Some y -> f x = Some b -> f y = Some b -> i = j.
Proof.
  induction l as [|z l IH]; intros Hnd i j x y b Hi Hj Hx Hy; [discriminate Hi|].
  assert (Hin : forall k w, l !! k = Some w -> f w = Some b -> b ∈ omap f l).
  { intros k w Hk Hw. apply list_elem_of_omap. exists w. split; [|exact Hw].
    eapply list_elem_of_lookup_2; eauto. }
  simpl in Hnd.
  destruct i as [|i], j as [|j]; cbn in Hi, Hj.
  - reflexivity.
  - injection Hi as ->. rewrite Hx in Hnd.
    apply NoDup_cons in Hnd as [Hn _]. destruct Hn. eauto.
  - injection Hj as ->. rewrite Hy in Hnd.
    apply NoDup_cons in Hnd as [Hn _]. destruct Hn. eauto.
  - f_equal. destruct (f z); [apply NoDup_cons in Hnd as [_ Hnd]|]; eapply IH; eauto.
Qed.

(** C1: a sample that the merge puts into a fused record is in no other
    record of the fused stream.  On a tick the merge copies the five slots
    into the new record and leaves the five slots nil, under one hold of
    the lock; and in every run of the sensor and fusion stages, for every
    sensor, two records of the fused stream that carry the same sample
    are one and the same record, as are two records that the merge built,
    whether they were sent or dropped on a full queue. *)
Theorem fused_sample_at_most_once `{RT : Runtime} :
  (forall fc now,
     let '(fc', rec) := controller.FusionController.merge_snapshot fc now in
     rec = models.FusedRecord.mk now
             (controller.FusionController.latestCamera fc)
             (controller.FusionController.latestLidar fc)
             (controller.FusionController.latestGPS fc)
             (controller.FusionController.latestIMU fc)
             (controller.FusionController.latestRadar fc)
     /\ controller.FusionController.latestCamera fc' = None
     /\ controller.FusionController.latestLidar fc' = None
     /\ controller.FusionController.latestGPS fc' = None
     /\ controller.FusionController.latestIMU fc' = None
     /\ controller.FusionController.latestRadar fc' = None
     /\ controller.FusionController.Out fc' = controller.FusionController.Out fc)
  /\ (forall cfg alignMs evs s i j ri rj a,
        let stream := fused_stream (snd (run evs (boot cfg alignMs))) in
        stream !! i = Some ri -> stream !! j = Some rj ->
        component s ri = Some a -> component s rj = Some a -> i = j)
  /\ (forall cfg alignMs evs s i j ri rj a,
        let all := fst <$> snd (run evs (boot cfg alignMs)) in
        all !! i = Some ri -> all !! j = Some rj ->
        component s ri = Some a -> component s rj = Some a -> i = j).
Proof.
  split; [|split].
  - intros fc now. cbn. repeat split.
  - intros cfg alignMs evs s i j ri rj a stream.
    destruct (run evs (boot cfg alignMs)) as [st ls] eqn:E. subst stream. cbn [snd].
    pose proof (lane_ok_run evs _ _ _ s [] (lane_ok_boot cfg alignMs s) E) as [Hnd _].
    cbn [app] in Hnd. apply NoDup_app in Hnd as (_ & _ & Hnd).
    apply omap_NoDup_lookup.
    eapply sublist_NoDup; [exact Hnd | apply stream_sublist_built].
  - intros cfg alignMs evs s i j ri rj a all.
    destruct (run evs (boot cfg alignMs)) as [st ls] eqn:E. subst all. cbn [snd].
    pose proof (lane_ok_run evs _ _ _ s [] (lane_ok_boot cfg alignMs s) E) as [Hnd _].
    cbn [app] in Hnd. apply NoDup_app in Hnd as (_ & _ & Hnd).
    apply omap_NoDup_lookup. rewrite built_fmap in Hnd. exact Hnd.
Qed.

(** Two camera frames arrive between two ticks: the second overwrites the
    first in the slot, the first fused record carries the second frame,
    and the next record carries no frame. *)
Example latest_wins_then_nothing :
  let cfg := utils.SensorsConfig.mk
               (utils.CameraConfig.mk true 4 30 640 480 "MJPEG" false)
               (utils.LidarConfig.mk false 0 "VLP-16" 600 384)
               (utils.GPSConfig.mk false 0 10) (utils.IMUConfig.mk false 0 100)
               (utils.RadarConfig.mk false 0) false 0 in
  let evs := [CameraTick 10 0; CameraTick 20 0;
              DrainRecv SCamera; DrainStore SCamera;
              DrainRecv SCamera; DrainStore SCamera;
              MergeTick 30; MergeSend; MergeTick 40; MergeSend] in
  fused_stream (snd (run (RT := sim.SimRuntime) evs (boot cfg 33)))
  = [models.FusedRecord.mk 30 (Some 1%nat) None None None None;
     models.FusedRecord.mk 40 None None None None None].
Proof. vm_compute. reflexivity. Qed.

(** ** Identifier sequences *)

Ltac same_ids := intros [= <- <-]; left; reflexivity.

Lemma step_ids `{RT : Runtime} e st st' l :
  step e st = (st', l) -> id_step (id_view st) (id_view st').
Proof.
  unfold step, id_step, id_view. destruct (panicked st) eqn:Hp; [same_ids|].
  destruct st as [h sc fr fc can ex pan]. cbn [sensors frames fusion store cancelled].
  destruct sc as [cam lid gps imu rad].
  destruct fr as [l1 l2 l3 l4 l5 d1 d2 d3 d4 d5 m].
  destruct e.
  - cbn [controller.SensorsController.camera f_camera].
    destruct cam as [r|]; [|same_ids].
    destruct (alive _ _); [|same_ids].
    destruct (ingest.CameraReader.run_tick _ _ _ _ _) as [[[r' l'] h'] v] eqn:E.
    intros [= <- <-].
    destruct (camera_tick_alloc _ _ _ _ _ _ _ _ _ E) as (f & -> & -> & Hid & _ & Hseq).
    right; left. exists f. split; [exact Hid|]. cbn. rewrite Hseq. reflexivity.
  - cbn [controller.SensorsController.lidar f_lidar].
    destruct lid as [r|]; [|same_ids].
    destruct (alive _ _); [|same_ids].
    destruct (ingest.LidarReader.run_tick _ _ _ _ _) as [[[[r' l'] h'] v]|] eqn:E;
      [|same_ids].
    intros [= <- <-].
    destruct (lidar_tick_alloc _ _ _ _ _ _ _ _ _ E) as (f & -> & -> & Hid & Hseq).
    right; right; left. exists f. split; [exact Hid|]. cbn. rewrite Hseq. reflexivity.
  - cbn [controller.SensorsController.gps f_gps].
    destruct gps as [r|]; [|same_ids].
    destruct (alive _ _); [|same_ids].
    destruct (ingest.GPSReader.run_tick _ _ _ _ _ _) as [[[r' l'] h'] v] eqn:E.
    intros [= <- <-].
    destruct (gps_tick_alloc _ _ _ _ _ _ _ _ _ _ E) as (f & -> & ->).
    left. reflexivity.
  - cbn [controller.SensorsController.imu f_imu].
    destruct imu as [r|]; [|same_ids].
    destruct (alive _ _); [|same_ids].
    destruct (ingest.IMUReader.run_tick _ _ _ _ _) as [[[r' l'] h'] v] eqn:E.
    intros [= <- <-].
    destruct (imu_tick_alloc _ _ _ _ _ _ _ _ _ E) as (f & -> & ->).
    left. reflexivity.
  - cbn [controller.SensorsController.radar f_radar].
    destruct rad as [r|]; [|same_ids].
    destruct (alive _ _); [|same_ids].
    destruct (ingest.RadarReader.run_tick _ _ _ _ _) as [[[r' l'] h'] v] eqn:E.
    intros [= <- <-].
    destruct (radar_tick_alloc _ _ _ _ _ _ _ _ _ E) as (f & -> & -> & Hid & Hseq).
    right; right; right; left. exists f. split; [exact Hid|]. cbn. rewrite Hseq.
    reflexivity.
  - destruct (can && alive _ _); same_ids.
  - destruct (chan_of s _); [|same_ids].
    destruct (held s _); [same_ids|].
    destruct (alive _ _); [|same_ids].
    destruct (channel.recv _) as [[ch [v|]]|]; try same_ids.
    intros [= <- <-]. left. destruct s; reflexivity.
  - destruct (held s _); [|same_ids].
    intros [= <- <-]. left. destruct s; reflexivity.
  - destruct (held s _); [same_ids|]. destruct (can && alive _ _); same_ids.
  - cbn [m_rec]. destruct m; [same_ids|]. destruct (alive _ _); same_ids.
  - cbn [m_rec]. destruct m; [|same_ids].
    destruct (controller.FusionController.merge_send _ _). same_ids.
  - cbn [m_rec]. destruct m; [same_ids|]. destruct (can && alive _ _); same_ids.
  - destruct (channel.recv _) as [[ch [v|]]|]; same_ids.
  - intros [= <- <-]. right; right; right; right. exists a, path. reflexivity.
  - same_ids.
Qed.

Lemma wrap_u64_succ z : wrap_u64 (wrap_u64 z + 1) = wrap_u64 (z + 1).
Proof. unfold wrap_u64. apply Zplus_mod_idemp_l. Qed.

Lemma wrap_i64_succ z : wrap_i64 (wrap_i64 z + 1) = wrap_i64 (z + 1).
Proof.
  unfold wrap_i64. f_equal.
  replace ((z + 2 ^ 63) mod 2 ^ 64 - 2 ^ 63 + 1 + 2 ^ 63)
    with ((z + 2 ^ 63) mod 2 ^ 64 + 1) by ring.
  rewrite Zplus_mod_idemp_l. f_equal. ring.
Qed.

Lemma lookup_snoc_inv {A} (l : list A) (x : A) i y :
  (l ++ [x]) !! i = Some y -> l !! i = Some y \/ (i = length l /\ y = x).
Proof.
  intros H. destruct (decide (i < length l)%nat) as [Hlt|Hge].
  - left. rewrite lookup_app_l in H by exact Hlt. exact H.
  - right. rewrite lookup_app_r in H by lia.
    destruct (i - length l)%nat as [|k] eqn:Ek; cbn in H.
    + injection H as <-. split; [lia | reflexivity].
    + destruct k; discriminate H.
Qed.

Lemma ids_ok_step v v' : ids_ok v -> id_step v v' -> ids_ok v'.
Proof.
  destruct v as [[[[[c li] r] sc] sl] ir].
  intros (Hc & Hsc & Hl & Hsl & Hr & Hir)
    [-> | [(f & Hf & ->) | [(f & Hf & ->) | [(f & Hf & ->) | (a & p & ->)]]]];
    unfold ids_ok.
  - repeat split; assumption.
  - repeat split; try assumption.
    + intros i g [H | [-> ->]]%lookup_snoc_inv; [eauto | congruence].
    + rewrite length_snoc, Nat2Z.inj_succ, Hsc, wrap_u64_succ. reflexivity.
  - repeat split; try assumption.
    + intros i g [H | [-> ->]]%lookup_snoc_inv; [eauto | congruence].
    + rewrite length_snoc, Nat2Z.inj_succ, Hsl, wrap_u64_succ. reflexivity.
  - repeat split; try assumption.
    + intros i g [H | [-> ->]]%lookup_snoc_inv; [eauto | congruence].
    + rewrite length_snoc, Nat2Z.inj_succ, Hir, wrap_i64_succ. reflexivity.
  - repeat split; try assumption.
    + intros i g H. destruct (decide (a = i)) as [->|Hne].
      * destruct (c !! i) as [f0|] eqn:E.
        -- rewrite list_lookup_insert_eq in H by (eapply lookup_lt_Some; eauto).
           injection H as <-. cbn. eauto.
        -- rewrite list_insert_ge in H by (apply lookup_ge_None; exact E). congruence.
      * rewrite list_lookup_insert_ne in H by exact Hne. eauto.
    + rewrite length_insert. exact Hsc.
Qed.

Lemma ids_ok_run `{RT : Runtime} evs : forall st st' ls,
  ids_ok (id_view st) -> run evs st = (st', ls) -> ids_ok (id_view st').
Proof.
  induction evs as [|e evs IH]; intros st st' ls Hok; cbn [run].
  - intros [= <- <-]. exact Hok.
  - destruct (step e st) as [st1 l1] eqn:E1.
    destruct (run evs st1) as [st2 l2] eqn:E2. intros [= <- <-].
    eapply IH; [|exact E2]. eapply ids_ok_step; [exact Hok|]. eapply step_ids; eauto.
Qed.

Lemma ids_ok_boot cfg alignMs : ids_ok (id_view (boot cfg alignMs)).
Proof. cbn. repeat split; intros i f H; discriminate H. Qed.

(** C5: within one session the identifiers of each producer (camera
    [frame_id], lidar [packet_id], radar [target_id]) are, in the order
    in which the records are created, 0, 1, 2, ...: the sequence starts
    at 0 and is strictly increasing, and comes from the loop's own
    counter, which is incremented once per record.  The identifier of
    the [i]-th record is [i] reduced to the width of its type, which is
    [i] itself for as long as a session can last. *)
Theorem producer_ids_strictly_increasing `{RT : Runtime} cfg alignMs evs :
  let st := fst (run evs (boot cfg alignMs)) in
  let cams := models.CameraFrame.FrameID <$> models.cameras (store st) in
  let lids := models.LidarPacket.PacketID <$> models.lidars (store st) in
  let rads := models.RadarTarget.TargetID <$> models.radars (store st) in
  (forall i x, cams !! i = Some x -> x = wrap_u64 (Z.of_nat i))
  /\ (forall i x, lids !! i = Some x -> x = wrap_u64 (Z.of_nat i))
  /\ (forall i x, rads !! i = Some x -> x = wrap_i64 (Z.of_nat i))
  /\ ingest.CameraReader.seq (f_camera (frames st)) = wrap_u64 (Z.of_nat (length cams))
  /\ ingest.LidarReader.seq (f_lidar (frames st)) = wrap_u64 (Z.of_nat (length lids))
  /\ ingest.RadarReader.id (f_radar (frames st)) = wrap_i64 (Z.of_nat (length rads))
  /\ (Z.of_nat (length cams) <= 2 ^ 64 ->
      (forall i x, cams !! i = Some x -> x = Z.of_nat i)
      /\ (forall i j x y, (i < j)%nat -> cams !! i = Some x -> cams !! j = Some y -> x < y))
  /\ (Z.of_nat (length lids) <= 2 ^ 64 ->
      (forall i x, lids !! i = Some x -> x = Z.of_nat i)
      /\ (forall i j x y, (i < j)%nat -> lids !! i = Some x -> lids !! j = Some y -> x < y))
  /\ (Z.of_nat (length rads) <= 2 ^ 63 ->
      (forall i x, rads !! i = Some x -> x = Z.of_nat i)
      /\ (forall i j x y, (i < j)%nat -> rads !! i = Some x -> rads !! j = Some y -> x < y)).
Proof.
  intros st cams lids rads.
  destruct (run evs (boot cfg alignMs)) as [st' ls] eqn:E. cbn [fst] in st. subst st.
  pose proof (ids_ok_run evs _ _ _ (ids_ok_boot cfg alignMs) E)
    as (Hc & Hsc & Hl & Hsl & Hr & Hir).
  assert (Ac : forall i x, cams !! i = Some x -> x = wrap_u64 (Z.of_nat i)).
  { intros i x H. subst cams. rewrite list_lookup_fmap in H.
    destruct (models.cameras (store st') !! i) as [f|] eqn:Ef; [|discriminate].
    injection H as <-. eauto. }
  assert (Al : forall i x, lids !! i = Some x -> x = wrap_u64 (Z.of_nat i)).
  { intros i x H. subst lids. rewrite list_lookup_fmap in H.
    destruct (models.lidars (store st') !! i) as [f|] eqn:Ef; [|discriminate].
    injection H as <-. eauto. }
  assert (Ar : forall i x, rads !! i = Some x -> x = wrap_i64 (Z.of_nat i)).
  { intros i x H. subst rads. rewrite list_lookup_fmap in H.
    destruct (models.radars (store st') !! i) as [f|] eqn:Ef; [|discriminate].
    injection H as <-. eauto. }
  assert (Bc : forall i x, Z.of_nat (length cams) <= 2 ^ 64 ->
                 cams !! i = Some x -> x = Z.of_nat i).
  { intros i x Hb H. rewrite (Ac i x H). apply wrap_u64_small.
    apply lookup_lt_Some in H. lia. }
  assert (Bl : forall i x, Z.of_nat (length lids) <= 2 ^ 64 ->
                 lids !! i = Some x -> x = Z.of_nat i).
  { intros i x Hb H. rewrite (Al i x H). apply wrap_u64_small.
    apply lookup_lt_Some in H. lia. }
  assert (Br : forall i x, Z.of_nat (length rads) <= 2 ^ 63 ->
                 rads !! i = Some x -> x = Z.of_nat i).
  { intros i x Hb H. rewrite (Ar i x H). apply wrap_i64_small.
    apply lookup_lt_Some in H. lia. }
  subst cams lids rads. rewrite !length_fmap in *.
  repeat split; auto.
  - intros i j x y Hij Hi Hj. rewrite (Bc i x), (Bc j y) by assumption. lia.
  - intros i j x y Hij Hi Hj. rewrite (Bl i x), (Bl j y) by assumption. lia.
  - intros i j x y Hij Hi Hj. rewrite (Br i x), (Br j y) by assumption. lia.
Qed.

(** ** The CSV writer (views/data_export.go) *)

Section csv_writer.
Context `{RT : Runtime}.

Lemma bufio_Flush_settles {U} (wr : U -> list models.byte -> U * nat * option error) b u :
  settled (fst (fst (bufio.Flush wr b u))).
Proof.
  unfold bufio.Flush, settled.
  destruct (bufio.err b) as [e|] eqn:He.
  { left. cbn [fst]. rewrite He. discriminate. }
  destruct (bufio.buf b) as [|x l] eqn:Hb.
  { right. exact Hb. }
  destruct (wr u (x :: l)) as [[u' n] [e|]].
  { left. cbn [fst bufio.err]. discriminate. }
  destruct (n <? length (x :: l))%nat; cbn [fst bufio.err bufio.buf];
    [left; discriminate | right; reflexivity].
Qed.

Lemma bufio_Flush_settled {U} (wr : U -> list models.byte -> U * nat * option error) b u :
  settled b -> bufio.Flush wr b u = (b, u, bufio.err b).
Proof.
  unfold bufio.Flush, settled.
  destruct (bufio.err b) as [e|]; [reflexivity|].
  intros [H | ->]; [congruence | reflexivity].
Qed.

Lemma Flush_rows (w : views.CSVWriter.t) (fs : FS) :
  views.CSVWriter.rows (fst (views.CSVWriter.Flush w fs)) = views.CSVWriter.rows w.
Proof.
  unfold views.CSVWriter.Flush, views.CSVWriter.csv_Flush, views.CSVWriter.buf_Flush.
  destruct (views.CSVWriter.csv w) as [c|].
  - destruct (bufio.Flush _ c _) as [[c' [b' fs']] e]. cbn.
    destruct (bufio.Flush _ b' fs') as [[b'' fs''] e']. reflexivity.
  - destruct (bufio.Flush _ _ fs) as [[b' fs'] e]. cbn.
    destruct (bufio.Flush _ b' fs') as [[b'' fs''] e']. reflexivity.
Qed.

Lemma Flush_Flush (w : views.CSVWriter.t) (fs : FS) :
  let '(w1, fs1) := views.CSVWriter.Flush w fs in
  views.CSVWriter.Flush w1 fs1 = (w1, fs1).
Proof.
  unfold views.CSVWriter.Flush, views.CSVWriter.csv_Flush, views.CSVWriter.buf_Flush.
  destruct w as [f b [c|] n]; cbn [views.CSVWriter.csv views.CSVWriter.buf
                                     views.CSVWriter.file views.CSVWriter.rows].
  - pose proof (bufio_Flush_settles (views.CSVWriter.buf_Write f) c (b, fs)) as Hc.
    destruct (bufio.Flush (views.CSVWriter.buf_Write f) c (b, fs)) as [[c' [b' fs']] e].
    cbn [fst] in Hc.
    cbn [views.CSVWriter.csv views.CSVWriter.buf views.CSVWriter.file views.CSVWriter.rows].
    pose proof (bufio_Flush_settles (file_Write f) b' fs') as Hb.
    destruct (bufio.Flush (file_Write f) b' fs') as [[b'' fs''] e']. cbn [fst] in Hb.
    cbn [views.CSVWriter.csv views.CSVWriter.buf views.CSVWriter.file views.CSVWriter.rows].
    rewrite (bufio_Flush_settled _ c' _ Hc).
    cbn [views.CSVWriter.csv views.CSVWriter.buf views.CSVWriter.file views.CSVWriter.rows].
    rewrite (bufio_Flush_settled _ b'' _ Hb). reflexivity.
  - pose proof (bufio_Flush_settles (file_Write f) b fs) as Hb.
    destruct (bufio.Flush (file_Write f) b fs) as [[b' fs'] e]. cbn [fst] in Hb.
    cbn [views.CSVWriter.csv views.CSVWriter.buf views.CSVWriter.file views.CSVWriter.rows].
    repeat (rewrite (bufio_Flush_settled _ b' _ Hb);
            cbn [views.CSVWriter.csv views.CSVWriter.buf views.CSVWriter.file
                 views.CSVWriter.rows]).
    reflexivity.
Qed.

End csv_writer.

(** C8: [Flush] is idempotent.  From every state of a writer and of the
    file system, a second [Flush] right after a first one changes neither
    the writer nor the file system: every file has the contents and the
    size it had after the first one, and the row counter is the one the
    writer had before the two calls. *)
Theorem flush_idempotent `{RT : Runtime} (w : views.CSVWriter.t) (fs : FS) :
  let once := views.CSVWriter.Flush w fs in
  let twice := views.CSVWriter.Flush (fst once) (snd once) in
  twice = once
  /\ (forall path, file_contents (snd twice) path = file_contents (snd once) path)
  /\ (forall path,
        length <$> file_contents (snd twice) path = length <$> file_contents (snd once) path)
  /\ views.CSVWriter.Rows (fst twice) = views.CSVWriter.Rows w
  /\ views.CSVWriter.Rows (fst once) = views.CSVWriter.Rows w.
Proof.
  intros once twice.
  assert (E : twice = once).
  { subst once twice. pose proof (Flush_Flush w fs) as H.
    destruct (views.CSVWriter.Flush w fs) as [w1 fs1]. exact H. }
  rewrite E. repeat split. all: apply Flush_rows.
Qed.

Lemma csv_put_all_rows `{RT : Runtime} ps : forall (w : views.CSVWriter.t) (fs : FS),
  views.CSVWriter.rows (fst (fst (views.CSVWriter.csv_put_all w fs ps)))
  = views.CSVWriter.rows w.
Proof.
  induction ps as [|p ps IH]; intros w0 fs0; cbn [views.CSVWriter.csv_put_all];
    [reflexivity|].
  assert (Hp : views.CSVWriter.rows (fst (fst (views.CSVWriter.csv_put w0 fs0 p)))
               = views.CSVWriter.rows w0).
  { unfold views.CSVWriter.csv_put. destruct (views.CSVWriter.csv w0) as [c|].
    - destruct (bufio.Write _ c _ p) as [[[c' [b' fs']] n] e]. reflexivity.
    - destruct (bufio.Write _ _ fs0 p) as [[[b' fs'] n] e]. reflexivity. }
  destruct (views.CSVWriter.csv_put w0 fs0 p) as [[w1 fs1] [e|]]; cbn [fst] in *;
    [exact Hp|]. rewrite IH. exact Hp.
Qed.

Lemma WriteRow_rows `{RT : Runtime} (w : views.CSVWriter.t) (fs : FS) row :
  views.CSVWriter.Rows (fst (views.CSVWriter.WriteRow w fs row))
  = wrap_u64 (views.CSVWriter.Rows w + 1).
Proof.
  unfold views.CSVWriter.Rows, views.CSVWriter.WriteRow, views.CSVWriter.csv_Write.
  pose proof (csv_put_all_rows (csv_chunks row) w fs) as H.
  destruct (views.CSVWriter.csv_put_all w fs (csv_chunks row)) as [[w1 fs1] e].
  cbn [fst] in *. rewrite H. reflexivity.
Qed.

Lemma write_rows_rows `{RT : Runtime} rows : forall (w : views.CSVWriter.t) (fs : FS),
  0 <= views.CSVWriter.Rows w < 2 ^ 64 ->
  views.CSVWriter.Rows (fst (write_rows w fs rows))
  = wrap_u64 (views.CSVWriter.Rows w + Z.of_nat (length rows)).
Proof.
  induction rows as [|row rows IH]; intros w fs Hw; cbn [write_rows length].
  - rewrite Z.add_0_r, wrap_u64_small by exact Hw. reflexivity.
  - pose proof (WriteRow_rows w fs row) as H.
    destruct (views.CSVWriter.WriteRow w fs row) as [w' fs']. cbn [fst] in H.
    rewrite IH by (rewrite H; apply wrap_u64_range).
    rewrite H. unfold wrap_u64. rewrite Zplus_mod_idemp_l. f_equal. lia.
Qed.

Lemma NewCSVWriter_rows `{RT : Runtime} fs path bufSize hdr header fs1
    (w : views.CSVWriter.t) :
  views.CSVWriter.NewCSVWriter fs path bufSize hdr header = (fs1, inl w) ->
  views.CSVWriter.Rows w = 0.
Proof.
  unfold views.CSVWriter.NewCSVWriter, views.CSVWriter.csv_Write, views.CSVWriter.Rows.
  destruct (os_Create fs path) as [fs0 [f|e]]; [|discriminate].
  destruct (hdr && _).
  - match goal with
    | |- context [views.CSVWriter.csv_put_all ?w0 ?fs0 ?ps] =>
        pose proof (csv_put_all_rows ps w0 fs0) as H;
        destruct (views.CSVWriter.csv_put_all w0 fs0 ps) as [[w1 fs2] [e|]]
    end.
    + destruct (file_Close f fs2). discriminate.
    + intros [= <- <-]. exact H.
  - intros [= <- <-]. reflexivity.
Qed.

(** C10: [WriteRow] increments the row counter whatever the encoder
    returned, so after [n] calls on a writer fresh from [NewCSVWriter]
    (whose header, written or not, is not counted) [Rows] returns [n],
    also when the encoder failed and no row reached the file. *)
Theorem rows_counts_every_call `{RT : Runtime} :
  (forall (w : views.CSVWriter.t) (fs : FS) row,
     views.CSVWriter.Rows (fst (views.CSVWriter.WriteRow w fs row))
     = wrap_u64 (views.CSVWriter.Rows w + 1))
  /\ (forall fs path bufSize hdr header fs1 (w : views.CSVWriter.t),
        views.CSVWriter.NewCSVWriter fs path bufSize hdr header = (fs1, inl w) ->
        views.CSVWriter.Rows w = 0
        /\ forall rows,
             views.CSVWriter.Rows (fst (write_rows w fs1 rows))
             = wrap_u64 (Z.of_nat (length rows))
             /\ (Z.of_nat (length rows) < 2 ^ 64 ->
                 views.CSVWriter.Rows (fst (write_rows w fs1 rows))
                 = Z.of_nat (length rows))).
Proof.
  split; [intros; apply WriteRow_rows|].
  intros fs path bufSize hdr header fs1 w Hnew.
  pose proof (NewCSVWriter_rows _ _ _ _ _ _ _ Hnew) as H0.
  split; [exact H0|]. intros rows.
  assert (E : views.CSVWriter.Rows (fst (write_rows w fs1 rows))
              = wrap_u64 (Z.of_nat (length rows))).
  { rewrite write_rows_rows by (rewrite H0; lia). rewrite H0. reflexivity. }
  split; [exact E|]. intros Hn. rewrite E. apply wrap_u64_small. lia.
Qed.

(** A device with no room left: the header and both rows fail to reach
    the file, which stays empty after a flush, and [Rows] is 2. *)
Example rows_counted_when_nothing_is_written :
  let fs0 := sim.mkDisk ∅ 0 in
  match views.CSVWriter.NewCSVWriter (RT := sim.SimRuntime) fs0 "gps.csv" 1024 false ["a"; "b"] with
  | (fs1, inl w) =>
      let '(w2, fs2) := write_rows (RT := sim.SimRuntime) w fs1 [["1"; "2"]; ["3"; "4"]] in
      let '(w3, fs3) := views.CSVWriter.Flush w2 fs2 in
      views.CSVWriter.Rows w3 = 2 /\ sim.contents fs3 "gps.csv" = Some []
  | _ => False
  end.
Proof. vm_compute. split; reflexivity. Qed.

Example rows_written_with_room :
  let fs0 := sim.mkDisk ∅ 100 in
  match views.CSVWriter.NewCSVWriter (RT := sim.SimRuntime) fs0 "gps.csv" 1024 true ["a"; "b"] with
  | (fs1, inl w) =>
      let '(w2, fs2) := write_rows (RT := sim.SimRuntime) w fs1 [["1"; "2"]; ["3"; "4"]] in
      let '(w3, fs3) := views.CSVWriter.Flush w2 fs2 in
      views.CSVWriter.Rows w3 = 2
      /\ sim.contents fs3 "gps.csv"
         = Some (sim.bytes ("a,b" +:+ String (ascii_of_nat 10)
                   ("1,2" +:+ String (ascii_of_nat 10)
                   ("3,4" +:+ String (ascii_of_nat 10) ""))))
  | _ => False
  end.
Proof. vm_compute. split; reflexivity. Qed.

(** ** The recording controller (controller/recording_controller.go) *)

(** C6: with [overwrite = false] and the session directory already
    there, the construction of the recording controller returns an error
    that names the session path, and the file system is the one it was
    given: the check comes before [MkdirAll] and before any CSV file is
    opened, so nothing is created or truncated, whatever these calls
    would have done. *)
Theorem overwrite_guard_touches_nothing `{RT : Runtime} (stamp : string)
    (storageCfg : utils.StorageConfig.t) (sensorsCfg : utils.SensorsConfig.t) (fs : FS) :
  utils.StorageConfig.Overwrite storageCfg = false ->
  os_Stat fs (session_dir stamp storageCfg) = None ->
  exists msg,
    controller.RecordingController.NewRecordingController stamp storageCfg sensorsCfg fs
    = (fs, inr msg)
    /\ contains msg (session_dir stamp storageCfg).
Proof.
  intros Hov Hstat.
  exists ("session dir " +:+ session_dir stamp storageCfg
          +:+ " already exists (overwrite=false)").
  split.
  - unfold controller.RecordingController.NewRecordingController, mbind,
      controller.RecordingController.M_bind, controller.RecordingController.bind,
      controller.RecordingController.overwrite_guard.
    fold (session_dir stamp storageCfg). rewrite Hov. cbn [negb]. rewrite Hstat.
    reflexivity.
  - exists "session dir ", " already exists (overwrite=false)". reflexivity.
Qed.

Lemma overwrite_guard_witness :
  exists msg,
    controller.RecordingController.NewRecordingController (RT := sim.SimRuntime)
      "20260214_153045" sample_storage sample_sensors existing_session
    = (existing_session, inr msg)
    /\ contains msg "data/drive_20260214_153045".
Proof.
  apply (overwrite_guard_touches_nothing (RT := sim.SimRuntime)
           "20260214_153045" sample_storage sample_sensors existing_session);
    reflexivity.
Defined.

(** Without the guard the same call creates the session: the directory
    and the CSV files of the enabled sensors. *)
Example fresh_session_is_created :
  let fs0 := sim.mkDisk (<["data" := sim.Dir]> ∅) 4096 in
  match controller.RecordingController.NewRecordingController (RT := sim.SimRuntime)
          "20260214_153045" sample_storage sample_sensors fs0 with
  | (fs1, inl rc) =>
      sim.nodes fs1 !! "data/drive_20260214_153045" = Some sim.Dir
      /\ sim.contents fs1 "data/drive_20260214_153045/fused.csv" = Some []
      /\ sim.contents fs1 "data/drive_20260214_153045/camera.csv" = Some []
      /\ sim.contents fs1 "data/drive_20260214_153045/gps.csv" = Some []
      /\ sim.contents fs1 "data/drive_20260214_153045/lidar.csv" = None
      /\ sim.nodes fs1 !! "data/drive_20260214_153045/frames" = Some sim.Dir
      /\ controller.RecordingController.saveFrames rc = true
  | _ => False
  end.
Proof. vm_compute. repeat split. Qed.

Lemma camera_at_set_FilePath h a p :
  (a < length (models.cameras h))%nat ->
  models.camera_at (models.set_camera_FilePath h a p) a
  = models.CameraFrame.with_FilePath p (models.camera_at h a).
Proof.
  intros Ha. unfold models.camera_at at 1, models.set_camera_FilePath.
  cbn [models.cameras]. rewrite list_lookup_insert_eq by exact Ha. reflexivity.
Qed.

Lemma capture_FilePath_empty r h ts rnd seq :
  let '(h', a) := ingest.CameraReader.capture r h ts rnd seq in
  models.CameraFrame.FilePath (models.camera_at h' a) = "".
Proof.
  unfold ingest.CameraReader.capture, models.new_camera, models.camera_at.
  destruct (ingest.CameraReader.sim r); cbn [models.cameras];
    rewrite lookup_app_r, Nat.sub_diag by lia; reflexivity.
Qed.

Lemma writeRecord_fused_row `{RT : Runtime}
    (rc : controller.RecordingController.t) (h : models.Store) (fs : FS)
    (rec : models.FusedRecord.t) (fw : views.CSVWriter.t) :
  controller.RecordingController.fusedWriter rc = Some fw ->
  exists rc' h' fs' saves,
    controller.RecordingController.writeRecord rc h fs rec = Some (rc', h', fs', saves)
    /\ controller.RecordingController.fusedWriter rc'
       = Some (fst (views.CSVWriter.WriteRow fw fs (models.FusedRecord.CSVRow h rec))).
Proof.
  intros Hfw.
  unfold controller.RecordingController.writeRecord,
    controller.RecordingController.write_to at 1.
  rewrite Hfw.
  destruct (views.CSVWriter.WriteRow fw fs _) as [fw' fs1].
  destruct (match models.FusedRecord.Camera rec with Some _ => _ | None => _ end)
    as [[[cw' h1] fs2] sv].
  destruct (match models.FusedRecord.Lidar rec with Some _ => _ | None => _ end)
    as [lw' fs3].
  destruct (match models.FusedRecord.GPS rec with Some _ => _ | None => _ end)
    as [gw' fs4].
  destruct (match models.FusedRecord.IMU rec with Some _ => _ | None => _ end)
    as [iw' fs5].
  destruct (match models.FusedRecord.Radar rec with Some _ => _ | None => _ end)
    as [rw' fs6].
  eexists _, _, _, _. split; reflexivity.
Qed.

Lemma fused_row_cam_file_path (h : models.Store) (rec : models.FusedRecord.t) a :
  models.FusedRecord.Camera rec = Some a ->
  models.FusedRecord.CSVRow h rec !! 2%nat
  = Some (models.CameraFrame.FilePath (models.camera_at h a)).
Proof.
  intros Hcam. unfold models.FusedRecord.CSVRow. rewrite Hcam.
  destruct (models.FusedRecord.Lidar rec), (models.FusedRecord.GPS rec),
    (models.FusedRecord.IMU rec), (models.FusedRecord.Radar rec); reflexivity.
Qed.

Lemma writeRecord_assigns_path `{RT : Runtime}
    (rc : controller.RecordingController.t) (h : models.Store) (fs : FS)
    (rec : models.FusedRecord.t) (fw cw : views.CSVWriter.t) (a : models.ptr) :
  controller.RecordingController.fusedWriter rc = Some fw ->
  models.FusedRecord.Camera rec = Some a ->
  controller.RecordingController.cameraWriter rc = Some cw ->
  (a < length (models.cameras h))%nat ->
  controller.RecordingController.saveFrames rc = true ->
  models.CameraFrame.JPEG (models.camera_at h a) <> [] ->
  path_assigned_after_fused_row rc h fs rec fw cw a.
Proof.
  intros Hfw Hcam Hcw Ha Hsave Hjpeg.
  unfold path_assigned_after_fused_row, controller.RecordingController.writeRecord,
    controller.RecordingController.write_to.
  rewrite Hfw, Hcw, Hcam, Hsave.
  destruct (views.CSVWriter.WriteRow fw fs _) as [fw' fs1].
  assert (Hlen : (0 <? length (models.CameraFrame.JPEG (models.camera_at h a)))%nat = true).
  { apply Nat.ltb_lt. destruct (models.CameraFrame.JPEG _); [congruence | simpl; lia]. }
  rewrite Hlen. cbn [andb fst snd].
  set (new := filepath_Join _).
  destruct (views.CSVWriter.WriteRow cw fs1 _) as [cw' fs2] eqn:Ecw.
  destruct (match models.FusedRecord.Lidar rec with Some _ => _ | None => _ end)
    as [lw' fs3].
  destruct (match models.FusedRecord.GPS rec with Some _ => _ | None => _ end)
    as [gw' fs4].
  destruct (match models.FusedRecord.IMU rec with Some _ => _ | None => _ end)
    as [iw' fs5].
  destruct (match models.FusedRecord.Radar rec with Some _ => _ | None => _ end)
    as [rw' fs6].
  eexists _, _, _, _. split; [reflexivity|].
  cbn [controller.RecordingController.fusedWriter
       controller.RecordingController.cameraWriter].
  rewrite Ecw. cbn [fst].
  rewrite !camera_at_set_FilePath by exact Ha.
  repeat split; try reflexivity. apply fused_row_cam_file_path. exact Hcam.
Qed.

(** C7: [writeRecord] writes the fused row before it assigns
    [Camera.FilePath].  For every fused record with a camera frame the
    [cam_file_path] field of the fused row is the path the frame had when
    the record arrived, which is the empty string for the frames that
    [capture] makes; this is so also when frames are saved, and then only
    the camera row, written after the assignment, carries the assigned
    path [<save_path>/<ts>.jpg]. *)
Theorem fused_row_written_before_path_assigned `{RT : Runtime}
    (rc : controller.RecordingController.t) (h : models.Store) (fs : FS)
    (rec : models.FusedRecord.t) (fw : views.CSVWriter.t) (a : models.ptr) :
  controller.RecordingController.fusedWriter rc = Some fw ->
  models.FusedRecord.Camera rec = Some a ->
  (exists rc' h' fs' saves,
     controller.RecordingController.writeRecord rc h fs rec = Some (rc', h', fs', saves)
     /\ controller.RecordingController.fusedWriter rc'
        = Some (fst (views.CSVWriter.WriteRow fw fs (models.FusedRecord.CSVRow h rec))))
  /\ models.FusedRecord.CSVRow h rec !! 2%nat
     = Some (models.CameraFrame.FilePath (models.camera_at h a))
  /\ (models.CameraFrame.FilePath (models.camera_at h a) = "" ->
      models.FusedRecord.CSVRow h rec !! 2%nat = Some "")
  /\ (forall cw,
        controller.RecordingController.cameraWriter rc = Some cw ->
        (a < length (models.cameras h))%nat ->
        controller.RecordingController.saveFrames rc = true ->
        models.CameraFrame.JPEG (models.camera_at h a) <> [] ->
        path_assigned_after_fused_row rc h fs rec fw cw a)
  /\ (forall r h0 ts rnd seq,
        let '(h1, p) := ingest.CameraReader.capture r h0 ts rnd seq in
        models.CameraFrame.FilePath (models.camera_at h1 p) = "").
Proof.
  intros Hfw Hcam.
  pose proof (fused_row_cam_file_path h rec a Hcam) as Hrow.
  repeat split.
  - apply writeRecord_fused_row. exact Hfw.
  - exact Hrow.
  - intros Hold. rewrite Hrow, Hold. reflexivity.
  - intros cw Hcw Ha Hsave Hjpeg. eapply writeRecord_assigns_path; eauto.
  - intros. apply capture_FilePath_empty.
Qed.

Lemma fused_row_written_before_path_assigned_witness :
  path_assigned_after_fused_row (RT := sim.SimRuntime)
    recorder0 store0 disk0 record0 (writer0 "fused.csv") (writer0 "camera.csv") 0%nat.
Proof.
  destruct (fused_row_written_before_path_assigned (RT := sim.SimRuntime)
              recorder0 store0 disk0 record0 (writer0 "fused.csv") 0%nat
              eq_refl eq_refl) as (_ & _ & _ & H & _).
  apply H; try reflexivity.
  - simpl. lia.
  - discriminate.
Defined.

(** The two files after that record and a flush: the fused row has an
    empty [cam_file_path], the camera row has the assigned path. *)
Example fused_and_camera_files :
  match controller.RecordingController.writeRecord (RT := sim.SimRuntime)
          recorder0 store0 disk0 record0 with
  | Some (rc, h, fs, saves) =>
      let fs' := snd (controller.RecordingController.flushAll rc fs) in
      sim.contents fs' (session0 +:+ "/fused.csv")
      = Some (sim.bytes ("2000,0,,640,480,,,,,,,,,,,,,,,,," +:+ String (ascii_of_nat 10) ""))
      /\ sim.contents fs' (session0 +:+ "/camera.csv")
         = Some (sim.bytes ("1000,0,640,480,MJPEG,frames/1000.jpg,2"
                            +:+ String (ascii_of_nat 10) ""))
      /\ saves = [controller.RecordingController.mkFrameSave [Byte.xff; Byte.xd8]
                    (session0 +:+ "/frames/1000.jpg")]
      /\ controller.RecordingController.RowsWritten rc = 1
  | None => False
  end.
Proof. vm_compute. repeat split. Qed.
